(** * telegram-trello-bot: the webhook relay of [app.py]

    A shallow embedding of the one source file of the bot: the start-up
    configuration check, the two outbound HTTP helpers and the webhook
    handler, followed by the properties the specification states about them.

    Python values that come out of a JSON body are modelled by [json];
    dictionaries are finite maps.  A string is the sequence of its code
    points, each below 256.  The outside world (the two HTTP services) is a
    parameter of the handler, and every outbound request and every log record
    is written to a trace. *)

From Stdlib Require Import ZArith QArith String Ascii.
From stdpp Require Import base strings gmap list.

Set Warnings "-register-all".

Local Open Scope string_scope.
Local Open Scope list_scope.
Local Open Scope Z_scope.

(** ** Values *)

(** What [json.loads] can return: [None], a bool, an int, a float, a str,
    a list or a dict with string keys.  [JFloat] carries the exact value of
    a finite float. *)
Inductive json : Type :=
  | JNull
  | JBool (b : bool)
  | JInt (n : Z)
  | JFloat (q : Q)
  | JStr (s : string)
  | JArr (xs : list json)
  | JObj (m : gmap string json).

(** Python's truth value, as used by [not x] and [x or y]. *)
Definition truthy (v : json) : bool :=
  match v with
  | JNull => false
  | JBool b => b
  | JInt n => negb (n =? 0)
  | JFloat q => negb (Qnum q =? 0)
  | JStr s => negb (String.eqb s "")
  | JArr xs => match xs with [] => false | _ :: _ => true end
  | JObj m => negb (bool_decide (m = ∅))
  end.

(** [a or b], with [b] already evaluated (both operands are pure lookups
    wherever the source uses it on values). *)
Definition py_or (a b : json) : json := if truthy a then a else b.

(** ** Strings: [str.strip] and [str.startswith] *)

(** The code points below 256 for which [str.isspace] holds. *)
Definition isspace (c : ascii) : bool :=
  let n := Z.of_N (N_of_ascii c) in
  ((9 <=? n) && (n <=? 13)) || ((28 <=? n) && (n <=? 32))
  || (n =? 133) || (n =? 160).

Fixpoint lstrip (s : string) : string :=
  match s with
  | EmptyString => EmptyString
  | String c s' => if isspace c then lstrip s' else s
  end.

Fixpoint rstrip (s : string) : string :=
  match s with
  | EmptyString => EmptyString
  | String c s' =>
      let r := rstrip s' in
      if isspace c && String.eqb r "" then EmptyString else String c r
  end.

Definition strip (s : string) : string := rstrip (lstrip s).

Definition startswith (s p : string) : bool := String.prefix p s.

(** ** Exceptions, events and the effect monad *)

Inductive exn : Type :=
  | RuntimeError
  | AttributeError
  | KeyError
  | TypeError
  | ConnectionError   (* requests.post could not reach the server *)
  | HTTPError         (* Response.raise_for_status *)
  | JSONDecodeError.  (* Response.json on a body that is not JSON *)

Inductive level : Type := INFO | ERROR.

(** What the program does to the outside: the two kinds of
    [requests.post] of the source, and log records (the format string
    only). *)
Inductive event : Type :=
  | PostParams (url : string) (params : gmap string string)
  | PostJson (url : string) (payload : gmap string json)
  | Log (lvl : level) (fmt : string).

(** A computation yields the events it produced, in order, and either the
    exception it raised or its value. *)
Definition M (A : Type) : Type := (list event * (exn + A))%type.

Definition ret {A} (a : A) : M A := ([], inr a).

Definition bind {A B} (c : M A) (k : A → M B) : M B :=
  match c with
  | (t, inl e) => (t, inl e)
  | (t, inr a) => let '(t', r) := k a in (t ++ t', r)
  end.

Definition raise {A} (e : exn) : M A := ([], inl e).

Definition emit (ev : event) : M unit := ([ev], inr tt).

(** [try: c  except E as e: h e], where [catches] says which exceptions
    the clause names; the others pass through. *)
Definition try_except {A} (c : M A) (catches : exn → bool) (h : exn → M A) : M A :=
  match c with
  | (t, inl e) => if catches e then let '(t', r) := h e in (t ++ t', r) else c
  | (_, inr _) => c
  end.

#[global] Instance M_ret : MRet M := @ret.
#[global] Instance M_bind : MBind M := λ A B k c, bind c k.

Definition trace_of {A} (c : M A) : list event := c.1.
Definition outcome_of {A} (c : M A) : exn + A := c.2.

(** ** The outside world *)

Record response : Type := {
  status_code : Z;
  json_body : option json   (* what [resp.json()] parses, if the body is JSON *)
}.

Inductive http_result : Type :=
  | Unreachable                 (* requests.post raises ConnectionError *)
  | Responded (r : response).

Record world : Type := {
  post_params : string → gmap string string → http_result;
  post_json : string → gmap string json → http_result;
  py_repr : json → string       (* str() of a value that is not a str *)
}.

(** [str(v)] as an f-string field formats it. *)
Definition py_str (w : world) (v : json) : string :=
  match v with
  | JStr s => s
  | _ => py_repr w v
  end.

(** ** Config (lines 9-18) *)

Record config : Type := {
  TELEGRAM_BOT_TOKEN : string;
  TRELLO_KEY : string;
  TRELLO_TOKEN : string;
  TRELLO_CHECKLIST_ID : string
}.

(** Truth value of what [os.environ.get] returns. *)
Definition env_truthy (o : option string) : bool :=
  match o with
  | Some s => negb (String.eqb s "")
  | None => false
  end.

Definition required_names : list string :=
  ["TELEGRAM_BOT_TOKEN"; "TRELLO_KEY"; "TRELLO_TOKEN"; "TRELLO_CHECKLIST_ID"].

(** The module-level statements: the four reads and the [all] check, which
    raises when a value is [None] or empty.  (The [__main__] block, for
    local runs only, is not part of the model.) *)
Definition load_config (environ : gmap string string) : exn + config :=
  let bot := environ !! "TELEGRAM_BOT_TOKEN" in
  let key := environ !! "TRELLO_KEY" in
  let tok := environ !! "TRELLO_TOKEN" in
  let chk := environ !! "TRELLO_CHECKLIST_ID" in
  if negb (forallb env_truthy [bot; key; tok; chk])
  then inl RuntimeError
  else inr {| TELEGRAM_BOT_TOKEN := default "" bot;
              TRELLO_KEY := default "" key;
              TRELLO_TOKEN := default "" tok;
              TRELLO_CHECKLIST_ID := default "" chk |}.

Definition TELEGRAM_API_BASE (cfg : config) : string :=
  "https://api.telegram.org/bot" +:+ TELEGRAM_BOT_TOKEN cfg.

Definition TRELLO_API_BASE : string := "https://api.trello.com/1".

(** ** Helper functions (lines 28-59) *)

(** A Flask view returns a body and a status. *)
Inductive body : Type :=
  | Text (s : string)
  | Jsonify (j : gmap string json).

Definition reply : Type := (body * Z)%type.

(** The methods the route lets through to the view (Flask adds [HEAD] to a
    route that allows [GET]). *)
Inductive http_method : Type := GET | HEAD | POST.

(** The request as the view sees it: its method, and what
    [request.get_json(force=True, silent=True)] returns ([None] when the body
    does not parse). *)
Record request : Type := {
  method : http_method;
  get_json : option json
}.

(** [v.get(k, d)]: only a dict has the method. *)
Definition py_get (v : json) (k : string) (d : json) : M json :=
  match v with
  | JObj m => mret (default d (m !! k))
  | _ => raise AttributeError
  end.

(** [v[k]] with a string key. *)
Definition py_getitem (v : json) (k : string) : M json :=
  match v with
  | JObj m => match m !! k with
              | Some x => mret x
              | None => raise KeyError
              end
  | _ => raise TypeError
  end.

(** [v.strip()]: only a str has the method. *)
Definition py_strip (v : json) : M string :=
  match v with
  | JStr s => mret (strip s)
  | _ => raise AttributeError
  end.

Definition is_http_error (e : exn) : bool :=
  match e with HTTPError => true | _ => false end.

(** The statuses for which [Response.raise_for_status] raises. *)
Definition http_error (r : response) : bool :=
  (400 <=? status_code r) && (status_code r <? 600).

(** [resp.raise_for_status()]. *)
Definition raise_for_status (r : response) : M unit :=
  if http_error r then raise HTTPError else mret tt.

(** [resp.json()]. *)
Definition resp_json (r : response) : M json :=
  match json_body r with
  | Some j => mret j
  | None => raise JSONDecodeError
  end.

(** The log records of the source. *)
Definition LOG_TRELLO_ERROR : event :=
  Log ERROR "Error from Trello API: %s - response: %s".
Definition LOG_TELEGRAM_ERROR : event :=
  Log ERROR "Error sending Telegram message: %s - response: %s".
Definition LOG_RECEIVED : event := Log INFO "Received update: %s".
Definition LOG_FAILED : event := Log ERROR "Failed to add checklist item".

(** The replies of the source. *)
Definition live : reply := (Text "Telegram webhook endpoint is live", 200).

Definition ok_true : reply := (Jsonify {[ "ok" := JBool true ]}, 200).

Definition no_payload : reply :=
  (Jsonify {[ "ok" := JBool false; "description" := JStr "No update payload" ]}, 400).

Definition plain_text_only : string := "Please send plain text tasks only for now.".

Definition greeting : string :=
  "Hey! Send me any message and I'll add it as a checklist item in Trello.".

Definition added_prefix : string := "Added to Trello checklist: ".

Definition oops : string :=
  "Oops, I couldn't add that to Trello. Check configuration/logs.".

Section Bot.

Variable cfg : config.
Variable w : world.

(** [requests.post(url, params=params)]. *)
Definition requests_post_params (url : string) (params : gmap string string)
  : M response :=
  emit (PostParams url params);;
  match post_params w url params with
  | Unreachable => raise ConnectionError
  | Responded r => mret r
  end.

(** [requests.post(url, json=payload)]. *)
Definition requests_post_json (url : string) (payload : gmap string json)
  : M response :=
  emit (PostJson url payload);;
  match post_json w url payload with
  | Unreachable => raise ConnectionError
  | Responded r => mret r
  end.

Definition trello_url : string :=
  TRELLO_API_BASE +:+ "/checklists/" +:+ TRELLO_CHECKLIST_ID cfg +:+ "/checkItems".

Definition trello_params (task_text : string) : gmap string string :=
  {[ "key" := TRELLO_KEY cfg;
     "token" := TRELLO_TOKEN cfg;
     "name" := task_text;
     "pos" := "top" ]}.

Definition add_checkitem_to_trello (task_text : string) : M json :=
  resp ← requests_post_params trello_url (trello_params task_text);
  try_except (raise_for_status resp) is_http_error
    (λ e, emit LOG_TRELLO_ERROR;; raise e);;
  resp_json resp.

Definition telegram_url : string := TELEGRAM_API_BASE cfg +:+ "/sendMessage".

Definition telegram_payload (chat_id : json) (text : string) : gmap string json :=
  {[ "chat_id" := chat_id; "text" := JStr text ]}.

Definition send_telegram_message (chat_id : json) (text : string) : M unit :=
  resp ← requests_post_json telegram_url (telegram_payload chat_id text);
  try_except (raise_for_status resp) is_http_error
    (λ e, emit LOG_TELEGRAM_ERROR).

(** ** Webhook endpoint (lines 64-111)

    The body of the view is cut into five consecutive pieces; each
    definition names the lines it embeds and ends by running the next. *)

(** Lines 100-109: the [try] with its [except Exception]. *)
Definition add_task (chat_id : json) (task_text : string) : M unit :=
  try_except
    (trello_response ← add_checkitem_to_trello task_text;
     item_name ← py_get trello_response "name" (JStr task_text);
     send_telegram_message chat_id (added_prefix +:+ py_str w item_name))
    (λ _, true)
    (λ _, emit LOG_FAILED;; send_telegram_message chat_id oops).

(** Lines 83-111, for the chat id and the text read from the message. *)
Definition handle_text (chat_id text : json) : M reply :=
  if negb (truthy text) then
    send_telegram_message chat_id plain_text_only;;
    mret ok_true
  else
    text ← py_strip text;
    if startswith text "/start" then
      send_telegram_message chat_id greeting;;
      mret ok_true
    else
      add_task chat_id text;;
      mret ok_true.

(** Lines 80-81, for the message selected from the update. *)
Definition handle_message (message : json) : M reply :=
  chat ← py_getitem message "chat";
  chat_id ← py_getitem chat "id";
  text ← py_get message "text" JNull;
  handle_text chat_id text.

(** Lines 75-78, for an update that passed the [if not update] test. *)
Definition handle_update (update : json) : M reply :=
  m ← py_get update "message" JNull;
  message ← (if truthy m then mret m else py_get update "edited_message" JNull);
  if negb (truthy message) then mret ok_true
  else handle_message message.

(** Lines 66-73. *)
Definition telegram_webhook (req : request) : M reply :=
  match method req with
  | GET => mret live
  | _ =>
      let update := default JNull (get_json req) in
      emit LOG_RECEIVED;;
      if negb (truthy update) then mret no_payload
      else handle_update update
  end.

End Bot.

(** ** Reading a trace *)

Definition is_board_call (ev : event) : bool :=
  match ev with PostParams _ _ => true | _ => false end.

Definition is_chat_call (ev : event) : bool :=
  match ev with PostJson _ _ => true | _ => false end.

(** The outbound HTTP calls of a trace, in order, and those to each
    service: only [add_checkitem_to_trello] posts parameters and only
    [send_telegram_message] posts JSON. *)
Definition calls (t : list event) : list event :=
  List.filter (λ ev, is_board_call ev || is_chat_call ev) t.
Definition board_calls (t : list event) : list event := List.filter is_board_call t.

(** The message the handler selects from an update (line 75). *)
Definition select_message (u : gmap string json) : json :=
  py_or (default JNull (u !! "message")) (default JNull (u !! "edited_message")).

(** A POST whose body parsed to [upd]. *)
Definition post (upd : json) : request := {| method := POST; get_json := Some upd |}.

(** ** Sample configuration, worlds and updates *)

Definition cfg0 : config :=
  {| TELEGRAM_BOT_TOKEN := "123:abc"; TRELLO_KEY := "key";
     TRELLO_TOKEN := "token"; TRELLO_CHECKLIST_ID := "list1" |}.

Definition status (st : Z) (j : option json) : http_result :=
  Responded {| status_code := st; json_body := j |}.

(** Both services answer 200; the board service echoes the name it was given. *)
Definition w_echo : world :=
  {| post_params := λ _ p, status 200 (Some (JObj {[ "name" := JStr (default "" (p !! "name")) ]}));
     post_json := λ _ _, status 200 (Some (JObj {[ "ok" := JBool true ]}));
     py_repr := λ _, "" |}.

(** The board service answers 500. *)
Definition w_board_500 : world :=
  {| post_params := λ _ _, status 500 None;
     post_json := λ _ _, status 200 (Some (JObj {[ "ok" := JBool true ]}));
     py_repr := λ _, "" |}.

(** The chat service cannot be reached. *)
Definition w_chat_down : world :=
  {| post_params := λ _ p, status 200 (Some (JObj {[ "name" := JStr (default "" (p !! "name")) ]}));
     post_json := λ _ _, Unreachable;
     py_repr := λ _, "" |}.

(** The chat service answers 403. *)
Definition w_chat_403 : world :=
  {| post_params := λ _ p, status 200 (Some (JObj {[ "name" := JStr (default "" (p !! "name")) ]}));
     post_json := λ _ _, status 403 None;
     py_repr := λ _, "" |}.

(** Neither service can be reached. *)
Definition w_offline : world :=
  {| post_params := λ _ _, Unreachable;
     post_json := λ _ _, Unreachable;
     py_repr := λ _, "" |}.

(** The update [{"message": {"chat": {"id": 42}, "text": t}}]. *)
Definition text_update (t : json) : json :=
  JObj {[ "message" := JObj {[ "chat" := JObj {[ "id" := JInt 42 ]}; "text" := t ]} ]}.

(** The update [{"message": {"chat": {"id": 42}}}]. *)
Definition textless_update : json :=
  JObj {[ "message" := JObj {[ "chat" := JObj {[ "id" := JInt 42 ]} ]} ]}.

(** ** Notions used to state the properties *)

(** The log record a response to [send_telegram_message] leaves. *)
Definition chat_log (r : response) : list event :=
  if http_error r then [LOG_TELEGRAM_ERROR] else [].

(** The board-service call fails: the request raises, or the status is one
    [raise_for_status] raises for. *)
Definition board_fails (res : http_result) : bool :=
  match res with
  | Unreachable => true
  | Responded r => http_error r
  end.

(** The log record [add_checkitem_to_trello] leaves. *)
Definition board_log (res : http_result) : list event :=
  match res with
  | Unreachable => []
  | Responded r => if http_error r then [LOG_TRELLO_ERROR] else []
  end.

(** The chat id [message["chat"]["id"]] reads, if both subscripts succeed. *)
Definition chat_id_of (message : json) : option json :=
  match message with
  | JObj msg => match msg !! "chat" with
                | Some (JObj chat) => chat !! "id"
                | _ => None
                end
  | _ => None
  end.

(** [c] followed by [return jsonify({"ok": True}), 200]. *)
Definition then_ok (c : M unit) : M reply :=
  (trace_of c, match outcome_of c with inl e => inl e | inr _ => inr ok_true end).

(** The [text] field of a message, if it has one. *)
Definition text_field (message : json) : option json :=
  match message with
  | JObj msg => msg !! "text"
  | _ => None
  end.

(** A text of whitespace only. *)
Fixpoint blank (s : string) : bool :=
  match s with
  | EmptyString => true
  | String c s' => isspace c && blank s'
  end.

(** ** Notions used to state the further properties *)

(** The request [add_checkitem_to_trello] makes for a text, and the request
    [send_telegram_message] makes for a chat id and a text. *)
Definition board_call (cfg : config) (task : string) : event :=
  PostParams (trello_url cfg) (trello_params cfg task).

Definition chat_call (cfg : config) (chat_id : json) (text : string) : event :=
  PostJson (telegram_url cfg) (telegram_payload chat_id text).

Definition is_object (v : json) : bool :=
  match v with JObj _ => true | _ => false end.

Definition is_str (v : json) : bool :=
  match v with JStr _ => true | _ => false end.

(** What the [except Exception] branch of the view does after the events
    [pre]: it logs the failure and sends the notice, whose outcome is the
    outcome of the [try] statement. *)
Definition failure_path (cfg : config) (w : world) (chat_id : json)
    (pre : list event) : M unit :=
  (pre ++ LOG_FAILED :: trace_of (send_telegram_message cfg w chat_id oops),
   outcome_of (send_telegram_message cfg w chat_id oops)).

(** The outbound HTTP calls the view makes for a request. *)
Definition webhook_calls (cfg : config) (w : world) (req : request) : list event :=
  calls (trace_of (telegram_webhook cfg w req)).

(** The last call of [t] is a chat-service request that cannot be reached. *)
Definition undelivered (w : world) (t : list event) : Prop :=
  ∃ url payload, last t = Some (PostJson url payload)
                 ∧ post_json w url payload = Unreachable.

(** The board service answers 200 with a body that is not JSON. *)
Definition w_board_html : world :=
  {| post_params := λ _ _, status 200 None;
     post_json := λ _ _, status 200 (Some (JObj {[ "ok" := JBool true ]}));
     py_repr := λ _, "" |}.

(** The chat service can be reached for the failure notice only. *)
Definition w_confirmation_lost : world :=
  {| post_params := λ _ p, status 200 (Some (JObj {[ "name" := JStr (default "" (p !! "name")) ]}));
     post_json := λ _ p,
       match p !! "text" with
       | Some (JStr t) =>
           if String.eqb t oops
           then status 200 (Some (JObj {[ "ok" := JBool true ]}))
           else Unreachable
       | _ => Unreachable
       end;
     py_repr := λ _, "" |}.

(** * Properties *)

(** ** The effect monad *)

Lemma bind_ret {A B} (a : A) (k : A → M B) : bind (ret a) k = k a.
Proof. unfold bind, ret. destruct (k a) as [t r]. reflexivity. Qed.

Lemma bind_raise {A B} (e : exn) (k : A → M B) : bind (raise e) k = raise e.
Proof. reflexivity. Qed.

Lemma bind_emit {B} (ev : event) (k : unit → M B) :
  bind (emit ev) k = (ev :: trace_of (k tt), outcome_of (k tt)).
Proof. unfold bind, emit, trace_of, outcome_of. destruct (k tt). reflexivity. Qed.

Lemma bind_assoc {A B C} (c : M A) (k : A → M B) (h : B → M C) :
  bind (bind c k) h = bind c (λ a, bind (k a) h).
Proof.
  destruct c as [t [e | a]]; simpl; [reflexivity |].
  destruct (k a) as [t1 [e1 | b]]; simpl; [reflexivity |].
  destruct (h b) as [t2 r2]. by rewrite app_assoc.
Qed.

(** ** Truth values *)

Lemma truthy_obj (m : gmap string json) : truthy (JObj m) = true ↔ m ≠ ∅.
Proof.
  simpl. rewrite negb_true_iff, bool_decide_eq_false. reflexivity.
Qed.

(** The values the [if not update] test rejects. *)
Lemma falsy_values (v : json) :
  truthy v = false ↔
  v = JNull ∨ v = JBool false ∨ v = JInt 0 ∨ (∃ q, v = JFloat q ∧ Qnum q = 0)
  ∨ v = JStr "" ∨ v = JArr [] ∨ v = JObj ∅.
Proof.
  split.
  - destruct v as [| b | n | q | s | xs | m]; simpl; intros H.
    + by left.
    + right; left. by rewrite H.
    + apply negb_false_iff, Z.eqb_eq in H. right; right; left. by rewrite H.
    + apply negb_false_iff, Z.eqb_eq in H. right; right; right; left. eauto.
    + apply negb_false_iff, String.eqb_eq in H. do 4 right; left. by rewrite H.
    + destruct xs; [| discriminate]. do 5 right; by left.
    + apply negb_false_iff, bool_decide_eq_true in H. do 6 right. by rewrite H.
  - intros [-> | [-> | [-> | [(q & -> & Hq) | [-> | [-> | ->]]]]]]; try reflexivity.
    simpl. by rewrite Hq.
Qed.

Lemma select_message_truthy (u : gmap string json) :
  truthy (select_message u) = true → u ≠ ∅.
Proof.
  intros H ->. unfold select_message, py_or in H.
  rewrite !lookup_empty in H. discriminate.
Qed.

(** ** The chat-service client *)

(** Whatever status the chat service answers, the call is made once, an
    error status is logged, and nothing is raised. *)
Lemma send_telegram_message_responded cfg w chat_id text r :
  post_json w (telegram_url cfg) (telegram_payload chat_id text) = Responded r →
  send_telegram_message cfg w chat_id text =
    (PostJson (telegram_url cfg) (telegram_payload chat_id text) :: chat_log r, inr tt).
Proof.
  intros H. unfold send_telegram_message, requests_post_json, chat_log.
  unfold mbind, M_bind. rewrite bind_emit, H. simpl.
  unfold raise_for_status. by destruct (http_error r).
Qed.

(** When the request itself fails, the [ConnectionError] of
    [requests.post] leaves the function: the call stands before the [try]. *)
Lemma send_telegram_message_unreachable cfg w chat_id text :
  post_json w (telegram_url cfg) (telegram_payload chat_id text) = Unreachable →
  send_telegram_message cfg w chat_id text =
    ([PostJson (telegram_url cfg) (telegram_payload chat_id text)], inl ConnectionError).
Proof.
  intros H. unfold send_telegram_message, requests_post_json.
  unfold mbind, M_bind. rewrite bind_emit, H. reflexivity.
Qed.

(** ** The board-service client *)

Lemma add_checkitem_to_trello_returns cfg w task r j :
  post_params w (trello_url cfg) (trello_params cfg task) = Responded r →
  http_error r = false →
  json_body r = Some j →
  add_checkitem_to_trello cfg w task =
    ([PostParams (trello_url cfg) (trello_params cfg task)], inr j).
Proof.
  intros H He Hj. unfold add_checkitem_to_trello, requests_post_params.
  unfold mbind, M_bind. rewrite bind_emit, H. simpl.
  unfold raise_for_status, resp_json. rewrite He, Hj. reflexivity.
Qed.

Lemma add_checkitem_to_trello_fails cfg w task :
  board_fails (post_params w (trello_url cfg) (trello_params cfg task)) = true →
  ∃ e, add_checkitem_to_trello cfg w task =
    (PostParams (trello_url cfg) (trello_params cfg task)
       :: board_log (post_params w (trello_url cfg) (trello_params cfg task)),
     inl e).
Proof.
  intros H. unfold add_checkitem_to_trello, requests_post_params.
  unfold mbind, M_bind. rewrite bind_emit.
  destruct (post_params w _ _) as [| r]; simpl in *.
  - by exists ConnectionError.
  - exists HTTPError. unfold raise_for_status. rewrite H. reflexivity.
Qed.

(** ** Lines 100-109 *)

Lemma add_task_board_failure cfg w chat_id task :
  board_fails (post_params w (trello_url cfg) (trello_params cfg task)) = true →
  add_task cfg w chat_id task =
    let t := PostParams (trello_url cfg) (trello_params cfg task)
               :: board_log (post_params w (trello_url cfg) (trello_params cfg task))
               ++ [LOG_FAILED] in
    let c := send_telegram_message cfg w chat_id oops in
    (t ++ trace_of c, outcome_of c).
Proof.
  intros H. destruct (add_checkitem_to_trello_fails cfg w task H) as [e He].
  unfold add_task, mbind, M_bind. rewrite He. simpl.
  destruct (send_telegram_message cfg w chat_id oops) as [t r]. simpl.
  by rewrite <- app_assoc.
Qed.

Lemma add_task_success cfg w chat_id task r item rc :
  post_params w (trello_url cfg) (trello_params cfg task) = Responded r →
  http_error r = false →
  json_body r = Some (JObj item) →
  let name := py_str w (default (JStr task) (item !! "name")) in
  post_json w (telegram_url cfg) (telegram_payload chat_id (added_prefix +:+ name))
    = Responded rc →
  add_task cfg w chat_id task =
    (PostParams (trello_url cfg) (trello_params cfg task)
       :: PostJson (telegram_url cfg) (telegram_payload chat_id (added_prefix +:+ name))
       :: chat_log rc,
     inr tt).
Proof.
  intros H He Hj name Hc.
  unfold add_task, mbind, M_bind.
  rewrite (add_checkitem_to_trello_returns _ _ _ _ _ H He Hj). simpl.
  fold name. rewrite (send_telegram_message_responded _ _ _ _ _ Hc). reflexivity.
Qed.

(** ** Lines 66-95 *)

Lemma bind_then_ok (c : M unit) : bind c (λ _, ret ok_true) = then_ok c.
Proof.
  destruct c as [t [e | []]]; unfold then_ok; simpl; [reflexivity |].
  by rewrite app_nil_r.
Qed.

Lemma telegram_webhook_post cfg w upd :
  truthy upd = true →
  telegram_webhook cfg w (post upd) =
    (LOG_RECEIVED :: trace_of (handle_update cfg w upd),
     outcome_of (handle_update cfg w upd)).
Proof.
  intros H. unfold telegram_webhook. simpl. rewrite H. simpl.
  by destruct (handle_update cfg w upd).
Qed.

Lemma telegram_webhook_falsy cfg w parsed :
  truthy (default JNull parsed) = false →
  telegram_webhook cfg w {| method := POST; get_json := parsed |} =
    ([LOG_RECEIVED], inr no_payload).
Proof. intros H. unfold telegram_webhook. simpl. by rewrite H. Qed.

Lemma handle_update_obj cfg w (u : gmap string json) :
  handle_update cfg w (JObj u) =
    if truthy (select_message u)
    then handle_message cfg w (select_message u)
    else ret ok_true.
Proof.
  unfold handle_update, select_message, py_or, py_get, mbind, M_bind, mret, M_ret.
  rewrite bind_ret.
  destruct (truthy (default JNull (u !! "message"))) eqn:Hm;
    rewrite bind_ret; [by rewrite Hm |].
  by destruct (truthy (default JNull (u !! "edited_message"))).
Qed.

Lemma handle_message_no_chat_id cfg w message :
  chat_id_of message = None →
  ∃ e, (e = KeyError ∨ e = TypeError) ∧ handle_message cfg w message = ([], inl e).
Proof.
  intros H. unfold handle_message, py_getitem, mbind, M_bind, mret, M_ret.
  destruct message as [| | | | | | msg]; try (by exists TypeError; auto).
  simpl in H. destruct (msg !! "chat") as [chat |]; [| exists KeyError; auto].
  rewrite bind_ret.
  destruct chat as [| | | | | | c]; try (by exists TypeError; auto).
  rewrite H. exists KeyError; auto.
Qed.

Lemma chat_id_of_truthy message chat_id :
  chat_id_of message = Some chat_id → truthy message = true.
Proof.
  destruct message as [| | | | | | msg]; try discriminate. simpl.
  intros H. apply negb_true_iff, bool_decide_eq_false. intros ->.
  by rewrite lookup_empty in H.
Qed.

Lemma handle_message_chat cfg w message chat_id :
  chat_id_of message = Some chat_id →
  handle_message cfg w message =
    handle_text cfg w chat_id (default JNull (text_field message)).
Proof.
  intros H. destruct message as [| | | | | | msg]; try discriminate.
  simpl in H. destruct (msg !! "chat") as [[| | | | | | chat] |] eqn:Hc; try discriminate.
  unfold handle_message, py_getitem, py_get, mbind, M_bind, mret, M_ret.
  by rewrite Hc, bind_ret, H, !bind_ret.
Qed.

(** The three routes of [handle_text]. *)
Lemma handle_text_falsy cfg w chat_id text :
  truthy text = false →
  handle_text cfg w chat_id text =
    then_ok (send_telegram_message cfg w chat_id plain_text_only).
Proof. intros H. unfold handle_text. rewrite H. apply bind_then_ok. Qed.

Lemma strip_empty : strip "" = "".
Proof. reflexivity. Qed.

Lemma handle_text_start cfg w chat_id s :
  startswith (strip s) "/start" = true →
  handle_text cfg w chat_id (JStr s) =
    then_ok (send_telegram_message cfg w chat_id greeting).
Proof.
  intros H. unfold handle_text.
  assert (Hs : truthy (JStr s) = true) by (by destruct s).
  rewrite Hs. cbn [negb py_strip]. unfold mbind, M_bind, mret, M_ret.
  rewrite bind_ret, H. apply bind_then_ok.
Qed.

Lemma handle_text_task cfg w chat_id s :
  s ≠ "" →
  startswith (strip s) "/start" = false →
  handle_text cfg w chat_id (JStr s) =
    then_ok (add_task cfg w chat_id (strip s)).
Proof.
  intros Hne H. unfold handle_text.
  assert (Hs : truthy (JStr s) = true) by (by destruct s).
  rewrite Hs. cbn [negb py_strip]. unfold mbind, M_bind, mret, M_ret.
  rewrite bind_ret, H. apply bind_then_ok.
Qed.

Lemma handle_text_not_str cfg w chat_id text :
  truthy text = true →
  (∀ s, text ≠ JStr s) →
  handle_text cfg w chat_id text = ([], inl AttributeError).
Proof.
  intros H Hs. unfold handle_text. rewrite H. simpl.
  destruct text; try reflexivity. by destruct (Hs s).
Qed.

(** ** Start-up configuration *)

Lemma env_truthy_false (o : option string) :
  env_truthy o = false ↔ o = None ∨ o = Some "".
Proof.
  destruct o as [s |]; simpl.
  - rewrite negb_false_iff, String.eqb_eq. split.
    + intros ->. by right.
    + intros [? | [= ->]]; [discriminate | reflexivity].
  - split; [by left | reflexivity].
Qed.

Lemma env_truthy_true (o : option string) :
  env_truthy o = true ↔ ∃ v, o = Some v ∧ v ≠ "".
Proof.
  destruct o as [s |]; simpl.
  - rewrite negb_true_iff, String.eqb_neq. split.
    + intros H. by exists s.
    + by intros (v & [= ->] & H).
  - split; [discriminate | by intros (v & ? & _)].
Qed.

Lemma required_names_elem (k : string) :
  k ∈ required_names ↔
  k = "TELEGRAM_BOT_TOKEN" ∨ k = "TRELLO_KEY" ∨ k = "TRELLO_TOKEN"
  ∨ k = "TRELLO_CHECKLIST_ID".
Proof.
  unfold required_names. rewrite !elem_of_cons, elem_of_nil. tauto.
Qed.

(** C8. The four required values are read from the environment; start-up
    aborts with the fatal error exactly when one of them is missing or
    empty, and when all four are present and non-empty the process starts
    with the values read. *)
Theorem config_fail_fast (environ : gmap string string) :
  (load_config environ = inl RuntimeError ↔
     ∃ k, k ∈ required_names ∧ (environ !! k = None ∨ environ !! k = Some ""))
  ∧ ((∀ k, k ∈ required_names → ∃ v, environ !! k = Some v ∧ v ≠ "") →
     ∃ cfg, load_config environ = inr cfg
       ∧ environ !! "TELEGRAM_BOT_TOKEN" = Some (TELEGRAM_BOT_TOKEN cfg)
       ∧ environ !! "TRELLO_KEY" = Some (TRELLO_KEY cfg)
       ∧ environ !! "TRELLO_TOKEN" = Some (TRELLO_TOKEN cfg)
       ∧ environ !! "TRELLO_CHECKLIST_ID" = Some (TRELLO_CHECKLIST_ID cfg)).
Proof.
  unfold load_config. simpl.
  destruct (env_truthy (environ !! "TELEGRAM_BOT_TOKEN")) eqn:H1; simpl;
    [destruct (env_truthy (environ !! "TRELLO_KEY")) eqn:H2; simpl;
      [destruct (env_truthy (environ !! "TRELLO_TOKEN")) eqn:H3; simpl;
        [destruct (env_truthy (environ !! "TRELLO_CHECKLIST_ID")) eqn:H4; simpl
        | ] | ] | ].
  - (* all four are set *)
    split.
    + split; [discriminate |]. intros (k & Hk & Hm).
      apply env_truthy_false in Hm. apply required_names_elem in Hk.
      destruct Hk as [-> | [-> | [-> | ->]]]; congruence.
    + intros _. eexists. split; [reflexivity |]. simpl.
      apply env_truthy_true in H1 as (v1 & -> & _).
      apply env_truthy_true in H2 as (v2 & -> & _).
      apply env_truthy_true in H3 as (v3 & -> & _).
      apply env_truthy_true in H4 as (v4 & -> & _). auto.
  - split.
    + split; [intros _ | reflexivity]. exists "TRELLO_CHECKLIST_ID".
      split; [by apply required_names_elem; auto | by apply env_truthy_false].
    + intros Hall. exfalso.
      destruct (Hall "TRELLO_CHECKLIST_ID") as (v & Hv & Hne);
        [apply required_names_elem; auto |].
      apply env_truthy_false in H4. rewrite Hv in H4.
      destruct H4 as [? | [= ?]]; congruence.
  - split.
    + split; [intros _ | reflexivity]. exists "TRELLO_TOKEN".
      split; [by apply required_names_elem; auto | by apply env_truthy_false].
    + intros Hall. exfalso.
      destruct (Hall "TRELLO_TOKEN") as (v & Hv & Hne);
        [apply required_names_elem; auto |].
      apply env_truthy_false in H3. rewrite Hv in H3.
      destruct H3 as [? | [= ?]]; congruence.
  - split.
    + split; [intros _ | reflexivity]. exists "TRELLO_KEY".
      split; [by apply required_names_elem; auto | by apply env_truthy_false].
    + intros Hall. exfalso.
      destruct (Hall "TRELLO_KEY") as (v & Hv & Hne);
        [apply required_names_elem; auto |].
      apply env_truthy_false in H2. rewrite Hv in H2.
      destruct H2 as [? | [= ?]]; congruence.
  - split.
    + split; [intros _ | reflexivity]. exists "TELEGRAM_BOT_TOKEN".
      split; [by apply required_names_elem; auto | by apply env_truthy_false].
    + intros Hall. exfalso.
      destruct (Hall "TELEGRAM_BOT_TOKEN") as (v & Hv & Hne);
        [apply required_names_elem; auto |].
      apply env_truthy_false in H1. rewrite Hv in H1.
      destruct H1 as [? | [= ?]]; congruence.
Qed.

(** With the four values set, the configuration is the one read. *)
Lemma config_fail_fast_witness :
  load_config {[ "TELEGRAM_BOT_TOKEN" := "123:abc"; "TRELLO_KEY" := "key";
                 "TRELLO_TOKEN" := "token"; "TRELLO_CHECKLIST_ID" := "list1" ]}
    ≠ inl RuntimeError
  ∧ load_config {[ "TELEGRAM_BOT_TOKEN" := "123:abc"; "TRELLO_KEY" := "key";
                   "TRELLO_TOKEN" := "token" ]}
    = inl RuntimeError.
Proof.
  split.
  - intros H. apply (proj1 (config_fail_fast _)) in H.
    destruct H as (k & Hk & Hm). apply required_names_elem in Hk.
    destruct Hk as [-> | [-> | [-> | ->]]];
      vm_compute in Hm; destruct Hm; discriminate.
  - apply (proj1 (config_fail_fast _)). exists "TRELLO_CHECKLIST_ID".
    split; [apply required_names_elem; auto | left; reflexivity].
Defined.

(** ** Replies of the view *)

Lemma then_ok_reply (c : M unit) (r : reply) :
  outcome_of (then_ok c) = inr r → r = ok_true.
Proof.
  unfold then_ok, outcome_of. simpl. destruct c.2; [discriminate | congruence].
Qed.

Lemma handle_text_reply cfg w chat_id text (r : reply) :
  outcome_of (handle_text cfg w chat_id text) = inr r → r = ok_true.
Proof.
  destruct (truthy text) eqn:Ht.
  - destruct text as [| | | | s | |];
      try (rewrite handle_text_not_str by (done || congruence); discriminate).
    destruct (startswith (strip s) "/start") eqn:Hp.
    + rewrite handle_text_start by done. apply then_ok_reply.
    + rewrite handle_text_task by (done || by intros ->). apply then_ok_reply.
  - rewrite handle_text_falsy by done. apply then_ok_reply.
Qed.

Lemma handle_message_reply cfg w message (r : reply) :
  outcome_of (handle_message cfg w message) = inr r → r = ok_true.
Proof.
  destruct (chat_id_of message) as [chat_id |] eqn:Hc.
  - rewrite (handle_message_chat cfg w _ _ Hc). apply handle_text_reply.
  - destruct (handle_message_no_chat_id cfg w _ Hc) as (e & _ & ->). discriminate.
Qed.

Lemma handle_update_reply cfg w upd (r : reply) :
  outcome_of (handle_update cfg w upd) = inr r → r = ok_true.
Proof.
  destruct upd as [| | | | | | u]; try discriminate.
  rewrite handle_update_obj. destruct (truthy (select_message u)).
  - apply handle_message_reply.
  - unfold outcome_of. simpl. congruence.
Qed.

Lemma ok_true_not_no_payload : ok_true ≠ no_payload.
Proof. unfold ok_true, no_payload. intros [= _ ?]. Qed.

(** ** Calls of a trace *)

Lemma calls_app (t1 t2 : list event) : calls (t1 ++ t2) = calls t1 ++ calls t2.
Proof. apply List.filter_app. Qed.

Lemma calls_log lvl fmt (t : list event) : calls (Log lvl fmt :: t) = calls t.
Proof. reflexivity. Qed.

Lemma calls_post_params url params (t : list event) :
  calls (PostParams url params :: t) = PostParams url params :: calls t.
Proof. reflexivity. Qed.

Lemma calls_post_json url payload (t : list event) :
  calls (PostJson url payload :: t) = PostJson url payload :: calls t.
Proof. reflexivity. Qed.

Lemma calls_nil : calls [] = [].
Proof. reflexivity. Qed.

Lemma calls_chat_log (r : response) : calls (chat_log r) = [].
Proof. unfold chat_log. by destruct (http_error r). Qed.

Lemma calls_board_log (res : http_result) : calls (board_log res) = [].
Proof. destruct res as [| r]; [reflexivity |]. simpl. by destruct (http_error r). Qed.

Create Rewrite HintDb calls.
#[local] Hint Rewrite calls_app calls_log calls_post_params calls_post_json
  calls_nil calls_chat_log calls_board_log : calls.

(** Reduce [calls] of an explicit trace to its outbound requests. *)
Ltac calls_simpl :=
  unfold LOG_RECEIVED, LOG_FAILED, LOG_TRELLO_ERROR, LOG_TELEGRAM_ERROR;
  autorewrite with calls; cbn [app].

(** ** The claims of the specification *)

(** C1, as the code has it.  A POST whose body parsed to a non-empty object
    with neither a [message] nor an [edited_message] field is answered 200
    with the body [{"ok": true}] and no downstream call is made; and the 400
    answer [{"ok": false, "description": "No update payload"}] is given
    exactly when the body did not parse or parsed to a value that is false
    for Python: [null], [false], zero, or an empty string, array or object
    ([falsy_values]). *)
Theorem webhook_ignores_or_rejects cfg w (parsed : option json) :
  (outcome_of (telegram_webhook cfg w {| method := POST; get_json := parsed |})
     = inr no_payload
   ↔ parsed = None ∨ ∃ v, parsed = Some v ∧ truthy v = false)
  ∧ (∀ u : gmap string json,
       parsed = Some (JObj u) → u ≠ ∅ →
       u !! "message" = None → u !! "edited_message" = None →
       telegram_webhook cfg w {| method := POST; get_json := parsed |}
         = ([LOG_RECEIVED], inr ok_true)
       ∧ calls (trace_of (telegram_webhook cfg w
                            {| method := POST; get_json := parsed |})) = []).
Proof.
  split.
  - split.
    + intros H. destruct parsed as [upd |]; [right | by left].
      exists upd. split; [reflexivity |].
      destruct (truthy upd) eqn:Ht; [| reflexivity].
      change {| method := POST; get_json := Some upd |} with (post upd) in H.
      rewrite (telegram_webhook_post _ _ _ Ht) in H.
      apply handle_update_reply in H. symmetry in H.
      by apply ok_true_not_no_payload in H.
    + intros H. rewrite telegram_webhook_falsy; [reflexivity |].
      by destruct H as [-> | (v & -> & H)].
  - intros u -> Hne Hm He.
    change {| method := POST; get_json := Some (JObj u) |} with (post (JObj u)).
    rewrite telegram_webhook_post by by apply truthy_obj.
    rewrite handle_update_obj. unfold select_message, py_or.
    rewrite Hm, He. simpl. split; reflexivity.
Qed.

(** The update [{"update_id": 7}] is acknowledged. *)
Lemma webhook_ignores_or_rejects_witness :
  telegram_webhook cfg0 w_echo (post (JObj {[ "update_id" := JInt 7 ]}))
    = ([LOG_RECEIVED], inr ok_true).
Proof.
  apply (proj2 (webhook_ignores_or_rejects cfg0 w_echo
                  (Some (JObj {[ "update_id" := JInt 7 ]})))
           {[ "update_id" := JInt 7 ]}).
  - reflexivity.
  - apply truthy_obj. vm_compute. reflexivity.
  - vm_compute. reflexivity.
  - vm_compute. reflexivity.
Defined.

(** C1 fails on the empty object: the body [{}] parses, has neither field,
    and is answered 400. *)
Lemma empty_object_is_rejected :
  (∅ : gmap string json) !! "message" = None
  ∧ (∅ : gmap string json) !! "edited_message" = None
  ∧ telegram_webhook cfg0 w_echo (post (JObj ∅)) = ([LOG_RECEIVED], inr no_payload)
  ∧ no_payload ≠ ok_true.
Proof.
  repeat split; try reflexivity.
  intros H. symmetry in H. by apply ok_true_not_no_payload in H.
Qed.

(** ** The routes of an update whose selected message carries a chat id *)

Lemma telegram_webhook_message cfg w (u : gmap string json) chat_id :
  chat_id_of (select_message u) = Some chat_id →
  telegram_webhook cfg w (post (JObj u)) =
    (LOG_RECEIVED
       :: trace_of (handle_text cfg w chat_id
                      (default JNull (text_field (select_message u)))),
     outcome_of (handle_text cfg w chat_id
                   (default JNull (text_field (select_message u))))).
Proof.
  intros H. pose proof (chat_id_of_truthy _ _ H) as Ht.
  rewrite telegram_webhook_post
    by (apply truthy_obj; by apply select_message_truthy).
  by rewrite handle_update_obj, Ht, (handle_message_chat _ _ _ _ H).
Qed.

Lemma then_ok_send_responded cfg w chat_id text rc :
  post_json w (telegram_url cfg) (telegram_payload chat_id text) = Responded rc →
  then_ok (send_telegram_message cfg w chat_id text) =
    (PostJson (telegram_url cfg) (telegram_payload chat_id text) :: chat_log rc,
     inr ok_true).
Proof. intros H. by rewrite (send_telegram_message_responded _ _ _ _ _ H). Qed.

Lemma then_ok_send_unreachable cfg w chat_id text :
  post_json w (telegram_url cfg) (telegram_payload chat_id text) = Unreachable →
  then_ok (send_telegram_message cfg w chat_id text) =
    ([PostJson (telegram_url cfg) (telegram_payload chat_id text)],
     inl ConnectionError).
Proof. intros H. by rewrite (send_telegram_message_unreachable _ _ _ _ H). Qed.

(** X2. A message with a chat id and without text, or with a text that is
    false for Python, makes the view send the canned reply as its one
    downstream call and answer [{"ok": true}] with status 200, as long as
    the chat service answers the request. *)
Lemma plain_text_only_reply cfg w (u : gmap string json) chat_id rc :
  chat_id_of (select_message u) = Some chat_id →
  truthy (default JNull (text_field (select_message u))) = false →
  post_json w (telegram_url cfg) (telegram_payload chat_id plain_text_only)
    = Responded rc →
  telegram_webhook cfg w (post (JObj u)) =
    (LOG_RECEIVED
       :: PostJson (telegram_url cfg) (telegram_payload chat_id plain_text_only)
       :: chat_log rc,
     inr ok_true).
Proof.
  intros Hc Ht Hr. rewrite (telegram_webhook_message _ _ _ _ Hc).
  by rewrite (handle_text_falsy _ _ _ _ Ht), (then_ok_send_responded _ _ _ _ _ Hr).
Qed.

(** The same message when the chat service cannot be reached: the view
    raises. *)
Lemma plain_text_only_unreachable cfg w (u : gmap string json) chat_id :
  chat_id_of (select_message u) = Some chat_id →
  truthy (default JNull (text_field (select_message u))) = false →
  post_json w (telegram_url cfg) (telegram_payload chat_id plain_text_only)
    = Unreachable →
  telegram_webhook cfg w (post (JObj u)) =
    ([LOG_RECEIVED;
      PostJson (telegram_url cfg) (telegram_payload chat_id plain_text_only)],
     inl ConnectionError).
Proof.
  intros Hc Ht Hr. rewrite (telegram_webhook_message _ _ _ _ Hc).
  by rewrite (handle_text_falsy _ _ _ _ Ht), (then_ok_send_unreachable _ _ _ _ Hr).
Qed.

(** X3. A text that starts with [/start] once trimmed makes the view send
    the greeting as its one downstream call and answer [{"ok": true}] with
    status 200, as long as the chat service answers the request. *)
Lemma start_command_reply cfg w (u : gmap string json) chat_id s rc :
  chat_id_of (select_message u) = Some chat_id →
  text_field (select_message u) = Some (JStr s) →
  startswith (strip s) "/start" = true →
  post_json w (telegram_url cfg) (telegram_payload chat_id greeting) = Responded rc →
  telegram_webhook cfg w (post (JObj u)) =
    (LOG_RECEIVED
       :: PostJson (telegram_url cfg) (telegram_payload chat_id greeting)
       :: chat_log rc,
     inr ok_true).
Proof.
  intros Hc Ht Hs Hr. rewrite (telegram_webhook_message _ _ _ _ Hc), Ht. simpl.
  by rewrite (handle_text_start _ _ _ _ Hs), (then_ok_send_responded _ _ _ _ _ Hr).
Qed.

Lemma start_command_unreachable cfg w (u : gmap string json) chat_id s :
  chat_id_of (select_message u) = Some chat_id →
  text_field (select_message u) = Some (JStr s) →
  startswith (strip s) "/start" = true →
  post_json w (telegram_url cfg) (telegram_payload chat_id greeting) = Unreachable →
  telegram_webhook cfg w (post (JObj u)) =
    ([LOG_RECEIVED; PostJson (telegram_url cfg) (telegram_payload chat_id greeting)],
     inl ConnectionError).
Proof.
  intros Hc Ht Hs Hr. rewrite (telegram_webhook_message _ _ _ _ Hc), Ht. simpl.
  by rewrite (handle_text_start _ _ _ _ Hs), (then_ok_send_unreachable _ _ _ _ Hr).
Qed.

(** Any other non-empty text is a task. *)
Lemma task_route cfg w (u : gmap string json) chat_id s :
  chat_id_of (select_message u) = Some chat_id →
  text_field (select_message u) = Some (JStr s) →
  s ≠ "" →
  startswith (strip s) "/start" = false →
  telegram_webhook cfg w (post (JObj u)) =
    (LOG_RECEIVED :: trace_of (then_ok (add_task cfg w chat_id (strip s))),
     outcome_of (then_ok (add_task cfg w chat_id (strip s)))).
Proof.
  intros Hc Ht Hne Hs. rewrite (telegram_webhook_message _ _ _ _ Hc), Ht. simpl.
  by rewrite (handle_text_task _ _ _ _ Hne Hs).
Qed.

(** X4. When the board-service call fails, by a network error or by a
    status from 400 to 599, the failure notice is the one chat-service call
    and the view answers [{"ok": true}] with status 200, as long as the chat
    service answers the request. *)
Lemma board_failure_notice cfg w (u : gmap string json) chat_id s rc :
  chat_id_of (select_message u) = Some chat_id →
  text_field (select_message u) = Some (JStr s) →
  s ≠ "" →
  startswith (strip s) "/start" = false →
  board_fails (post_params w (trello_url cfg) (trello_params cfg (strip s))) = true →
  post_json w (telegram_url cfg) (telegram_payload chat_id oops) = Responded rc →
  calls (trace_of (telegram_webhook cfg w (post (JObj u)))) =
    [PostParams (trello_url cfg) (trello_params cfg (strip s));
     PostJson (telegram_url cfg) (telegram_payload chat_id oops)]
  ∧ outcome_of (telegram_webhook cfg w (post (JObj u))) = inr ok_true.
Proof.
  intros Hc Ht Hne Hs Hb Hr. rewrite (task_route _ _ _ _ _ Hc Ht Hne Hs).
  rewrite (add_task_board_failure _ _ _ _ Hb).
  rewrite (send_telegram_message_responded _ _ _ _ _ Hr).
  unfold then_ok, trace_of, outcome_of. cbn [fst snd]. split; [| reflexivity].
  by calls_simpl.
Qed.

Lemma board_failure_unreachable cfg w (u : gmap string json) chat_id s :
  chat_id_of (select_message u) = Some chat_id →
  text_field (select_message u) = Some (JStr s) →
  s ≠ "" →
  startswith (strip s) "/start" = false →
  board_fails (post_params w (trello_url cfg) (trello_params cfg (strip s))) = true →
  post_json w (telegram_url cfg) (telegram_payload chat_id oops) = Unreachable →
  outcome_of (telegram_webhook cfg w (post (JObj u))) = inl ConnectionError.
Proof.
  intros Hc Ht Hne Hs Hb Hr. rewrite (task_route _ _ _ _ _ Hc Ht Hne Hs).
  rewrite (add_task_board_failure _ _ _ _ Hb).
  by rewrite (send_telegram_message_unreachable _ _ _ _ Hr).
Qed.

(** C2, as the code has it.  For an update whose selected message has a chat
    id and a string text that is not empty and, once trimmed, does not start
    with [/start]: when the board-service call succeeds and answers an
    object, and the chat service answers the request, exactly one
    board-service call and one chat-service call are made, in that order;
    the first carries the trimmed text, the second the text
    ["Added to Trello checklist: "] followed by the name the board service
    reported (the trimmed text when it reported none), and the reply is
    [{"ok": true}] with status 200. *)
Theorem task_added_when_board_succeeds
    cfg w (u : gmap string json) chat_id s r item rc :
  chat_id_of (select_message u) = Some chat_id →
  text_field (select_message u) = Some (JStr s) →
  s ≠ "" →
  startswith (strip s) "/start" = false →
  post_params w (trello_url cfg) (trello_params cfg (strip s)) = Responded r →
  http_error r = false →
  json_body r = Some (JObj item) →
  post_json w (telegram_url cfg)
    (telegram_payload chat_id
       (added_prefix +:+ py_str w (default (JStr (strip s)) (item !! "name"))))
    = Responded rc →
  calls (trace_of (telegram_webhook cfg w (post (JObj u)))) =
    [PostParams (trello_url cfg) (trello_params cfg (strip s));
     PostJson (telegram_url cfg)
       (telegram_payload chat_id
          (added_prefix +:+ py_str w (default (JStr (strip s)) (item !! "name"))))]
  ∧ outcome_of (telegram_webhook cfg w (post (JObj u))) = inr ok_true.
Proof.
  intros Hc Ht Hne Hs Hb He Hj Hr. rewrite (task_route _ _ _ _ _ Hc Ht Hne Hs).
  rewrite (add_task_success _ _ _ _ _ _ _ Hb He Hj Hr).
  unfold then_ok, trace_of, outcome_of. cbn [fst snd]. split; [| reflexivity].
  by calls_simpl.
Qed.

(** Scenario A: the text [" buy milk "] is added as ["buy milk"] and
    confirmed to chat 42. *)
Lemma task_added_when_board_succeeds_witness :
  calls (trace_of (telegram_webhook cfg0 w_echo (post (text_update (JStr " buy milk "))))) =
    [PostParams (trello_url cfg0) (trello_params cfg0 "buy milk");
     PostJson (telegram_url cfg0)
       (telegram_payload (JInt 42) "Added to Trello checklist: buy milk")]
  ∧ outcome_of (telegram_webhook cfg0 w_echo (post (text_update (JStr " buy milk "))))
    = inr ok_true.
Proof.
  assert (H := task_added_when_board_succeeds cfg0 w_echo
           {[ "message" := JObj {[ "chat" := JObj {[ "id" := JInt 42 ]};
                                   "text" := JStr " buy milk " ]} ]}
           (JInt 42) " buy milk "
           {| status_code := 200;
              json_body := Some (JObj {[ "name" := JStr "buy milk" ]}) |}
           {[ "name" := JStr "buy milk" ]}
           {| status_code := 200;
              json_body := Some (JObj {[ "ok" := JBool true ]}) |}).
  apply H.
  - vm_compute. reflexivity.
  - vm_compute. reflexivity.
  - discriminate.
  - vm_compute. reflexivity.
  - vm_compute. reflexivity.
  - vm_compute. reflexivity.
  - reflexivity.
  - reflexivity.
Defined.

(** C2 fails when the board service refuses the item: for the update of
    scenario A and a board service that answers 500, the one chat message is
    the failure notice, which is no ["Added to Trello checklist: "] text. *)
Lemma board_refusal_is_not_confirmed :
  calls (trace_of (telegram_webhook cfg0 w_board_500 (post (text_update (JStr "buy milk"))))) =
    [PostParams (trello_url cfg0) (trello_params cfg0 "buy milk");
     PostJson (telegram_url cfg0) (telegram_payload (JInt 42) oops)]
  ∧ ∀ name, telegram_payload (JInt 42) oops
            ≠ telegram_payload (JInt 42) (added_prefix +:+ name).
Proof.
  split.
  - vm_compute. reflexivity.
  - intros name H.
    assert (Ht : telegram_payload (JInt 42) oops !! "text"
                 = telegram_payload (JInt 42) (added_prefix +:+ name) !! "text")
      by (by rewrite H).
    unfold telegram_payload in Ht.
    rewrite !lookup_insert_ne, !lookup_singleton_eq in Ht by done.
    discriminate.
Qed.

(** C9, as the code has it.  When the message the handler selects (the
    [message] field if it is true for Python, else the [edited_message]
    field) is true but has no [chat] object or no [chat.id], the handler
    raises [KeyError] or [TypeError] before any downstream call, and no
    reply is returned. *)
Theorem missing_chat_id_raises cfg w (u : gmap string json) :
  truthy (select_message u) = true →
  chat_id_of (select_message u) = None →
  ∃ e, (e = KeyError ∨ e = TypeError)
       ∧ telegram_webhook cfg w (post (JObj u)) = ([LOG_RECEIVED], inl e).
Proof.
  intros Ht Hc.
  destruct (handle_message_no_chat_id cfg w _ Hc) as (e & He & Hm).
  exists e. split; [done |].
  rewrite telegram_webhook_post
    by (apply truthy_obj; by apply select_message_truthy).
  by rewrite handle_update_obj, Ht, Hm.
Qed.

(** The update [{"message": {"text": "hi"}}] raises [KeyError]. *)
Lemma missing_chat_id_raises_witness :
  ∃ e, (e = KeyError ∨ e = TypeError)
       ∧ telegram_webhook cfg0 w_echo
           (post (JObj {[ "message" := JObj {[ "text" := JStr "hi" ]} ]}))
         = ([LOG_RECEIVED], inl e).
Proof.
  apply (missing_chat_id_raises cfg0 w_echo
           {[ "message" := JObj {[ "text" := JStr "hi" ]} ]}).
  - vm_compute. reflexivity.
  - vm_compute. reflexivity.
Defined.

(** C9 fails on an empty message object: the update [{"message": {}}] holds
    a message object without a chat, and is acknowledged. *)
Lemma empty_message_is_acknowledged :
  (∅ : gmap string json) !! "chat" = None
  ∧ telegram_webhook cfg0 w_echo (post (JObj {[ "message" := JObj ∅ ]}))
    = ([LOG_RECEIVED], inr ok_true).
Proof. split; reflexivity. Qed.

(** ** What the board service is asked to add *)

Lemma rstrip_empty (s : string) : rstrip s = "" ↔ blank s = true.
Proof.
  induction s as [| c s IH]; simpl; [done |].
  destruct (isspace c); simpl.
  - destruct (String.eqb (rstrip s) "") eqn:He.
    + apply String.eqb_eq in He. by rewrite <- IH.
    + apply String.eqb_neq in He. rewrite <- IH. split; [discriminate | done].
  - split; discriminate.
Qed.

Lemma blank_lstrip (s : string) : blank (lstrip s) = blank s.
Proof.
  induction s as [| c s IH]; simpl; [done |].
  destruct (isspace c) eqn:Hc; simpl; [done |]. by rewrite Hc.
Qed.

(** The trimmed text is empty exactly for a text of whitespace only. *)
Lemma strip_blank (s : string) : strip s = "" ↔ blank s = true.
Proof. unfold strip. by rewrite rstrip_empty, blank_lstrip. Qed.

Lemma board_calls_send cfg w chat_id text :
  board_calls (trace_of (send_telegram_message cfg w chat_id text)) = [].
Proof.
  destruct (post_json w (telegram_url cfg) (telegram_payload chat_id text))
    as [| rc] eqn:Hr.
  - by rewrite (send_telegram_message_unreachable _ _ _ _ Hr).
  - rewrite (send_telegram_message_responded _ _ _ _ _ Hr).
    unfold chat_log. by destruct (http_error rc).
Qed.

Lemma board_calls_app (t1 t2 : list event) :
  board_calls (t1 ++ t2) = board_calls t1 ++ board_calls t2.
Proof. apply List.filter_app. Qed.

Lemma trace_bind {A B} (c : M A) (k : A → M B) :
  trace_of (bind c k) =
    trace_of c ++ match outcome_of c with
                  | inl _ => []
                  | inr a => trace_of (k a)
                  end.
Proof.
  destruct c as [t [e | a]]; unfold trace_of, outcome_of; simpl.
  - by rewrite app_nil_r.
  - by destruct (k a).
Qed.

Lemma trace_try_except {A} (c : M A) catches (h : exn → M A) :
  trace_of (try_except c catches h) =
    trace_of c ++ match outcome_of c with
                  | inl e => if catches e then trace_of (h e) else []
                  | inr _ => []
                  end.
Proof.
  destruct c as [t [e | a]]; unfold trace_of, outcome_of; simpl.
  - destruct (catches e); [by destruct (h e) | by rewrite app_nil_r].
  - by rewrite app_nil_r.
Qed.

Lemma trace_py_get v k d : trace_of (py_get v k d) = [].
Proof. by destruct v. Qed.

Lemma board_calls_checkitem cfg w task :
  board_calls (trace_of (add_checkitem_to_trello cfg w task)) =
    [PostParams (trello_url cfg) (trello_params cfg task)].
Proof.
  unfold add_checkitem_to_trello, requests_post_params, mbind, M_bind.
  rewrite bind_emit.
  destruct (post_params w _ _) as [| r]; [reflexivity |].
  unfold raise_for_status, resp_json. simpl.
  destruct (http_error r); [reflexivity |].
  by destruct (json_body r).
Qed.

(** [add_task] asks the board service once, for the text it is given. *)
Lemma board_calls_add_task cfg w chat_id task :
  board_calls (trace_of (add_task cfg w chat_id task)) =
    [PostParams (trello_url cfg) (trello_params cfg task)].
Proof.
  unfold add_task, mbind, M_bind.
  rewrite trace_try_except, board_calls_app, trace_bind, board_calls_app.
  rewrite board_calls_checkitem.
  assert (Hh : board_calls (trace_of (bind (emit LOG_FAILED)
                  (λ _, send_telegram_message cfg w chat_id oops))) = []).
  { rewrite trace_bind. apply board_calls_send. }
  rewrite (surjective_pairing (add_checkitem_to_trello cfg w task)).
  fold (outcome_of (add_checkitem_to_trello cfg w task)).
  destruct (outcome_of (add_checkitem_to_trello cfg w task)) as [e | a];
    cbn [bind outcome_of snd].
  - by rewrite Hh.
  - assert (Hb : board_calls (trace_of (bind (py_get a "name" (JStr task))
                    (λ item_name, send_telegram_message cfg w chat_id
                                    (added_prefix +:+ py_str w item_name)))) = []).
    { rewrite trace_bind, board_calls_app, trace_py_get.
      destruct (outcome_of (py_get a "name" (JStr task))); [reflexivity |].
      apply board_calls_send. }
    rewrite Hb.
    destruct (bind (py_get a "name" (JStr task)) _) as [t' [e | []]];
      cbn [snd outcome_of]; [by rewrite Hh | reflexivity].
Qed.

(** X5. The view makes at most one board-service call, and the call it
    makes carries the trimmed text of a selected message whose text is a
    non-empty string. *)
Lemma board_call_text cfg w (u : gmap string json) :
  board_calls (trace_of (telegram_webhook cfg w (post (JObj u)))) = []
  ∨ ∃ s, text_field (select_message u) = Some (JStr s) ∧ s ≠ ""
       ∧ board_calls (trace_of (telegram_webhook cfg w (post (JObj u)))) =
           [PostParams (trello_url cfg) (trello_params cfg (strip s))].
Proof.
  destruct (truthy (JObj u)) eqn:Hu;
    [| left; unfold post; by rewrite (telegram_webhook_falsy cfg w (Some (JObj u)) Hu)].
  rewrite (telegram_webhook_post _ _ _ Hu), handle_update_obj.
  destruct (truthy (select_message u)) eqn:Hm; [| by left].
  destruct (chat_id_of (select_message u)) as [chat_id |] eqn:Hc.
  - rewrite (handle_message_chat _ _ _ _ Hc).
    destruct (truthy (default JNull (text_field (select_message u)))) eqn:Ht.
    + destruct (text_field (select_message u)) as [[| | | | s | |] |] eqn:Hf;
        try discriminate;
        try (left; rewrite handle_text_not_str by (done || congruence);
             reflexivity).
      assert (Hne : s ≠ "") by (by intros ->).
      destruct (startswith (strip s) "/start") eqn:Hs.
      * left. simpl. rewrite (handle_text_start _ _ _ _ Hs).
        apply board_calls_send.
      * right. exists s. repeat split; [done |]. simpl.
        rewrite (handle_text_task _ _ _ _ Hne Hs).
        apply board_calls_add_task.
    + left. rewrite (handle_text_falsy _ _ _ _ Ht). apply board_calls_send.
  - left. destruct (handle_message_no_chat_id cfg w _ Hc) as (e & _ & ->).
    reflexivity.
Qed.

(** ** Where the code leaves the specification *)

(** C4 at a failing input: when the chat service cannot be reached,
    [send_telegram_message] makes its one request and the
    [ConnectionError] of [requests.post] leaves the function, with no log
    record; only an error status is logged and swallowed
    ([send_telegram_message_responded]). *)
Theorem send_telegram_message_propagates_connection_error :
  send_telegram_message cfg0 w_chat_down (JInt 42) "hi" =
    ([PostJson (telegram_url cfg0) (telegram_payload (JInt 42) "hi")],
     inl ConnectionError).
Proof. reflexivity. Qed.

(** The confirmation that cannot be delivered is taken for a board failure:
    the [except Exception] of the view catches its [ConnectionError] and a
    second chat-service call is made. *)
Lemma undelivered_confirmation_cascades :
  telegram_webhook cfg0 w_chat_down (post (text_update (JStr "buy milk"))) =
    ([LOG_RECEIVED;
      PostParams (trello_url cfg0) (trello_params cfg0 "buy milk");
      PostJson (telegram_url cfg0)
        (telegram_payload (JInt 42) "Added to Trello checklist: buy milk");
      LOG_FAILED;
      PostJson (telegram_url cfg0) (telegram_payload (JInt 42) oops)],
     inl ConnectionError).
Proof. vm_compute. reflexivity. Qed.

(** C3 at a failing input: with neither service reachable, the board-service
    call fails, the one chat-service call carries the failure notice, and
    the view raises [ConnectionError] instead of answering 200. *)
Theorem failure_notice_unreachable_raises :
  telegram_webhook cfg0 w_offline (post (text_update (JStr "buy milk"))) =
    ([LOG_RECEIVED;
      PostParams (trello_url cfg0) (trello_params cfg0 "buy milk");
      LOG_FAILED;
      PostJson (telegram_url cfg0) (telegram_payload (JInt 42) oops)],
     inl ConnectionError).
Proof. vm_compute. reflexivity. Qed.

(** C5 at a failing input: for a text of three spaces the board service is
    asked to add an item whose name is the empty string. *)
Theorem blank_text_reaches_board :
  board_calls (trace_of (telegram_webhook cfg0 w_echo (post (text_update (JStr "   "))))) =
    [PostParams (trello_url cfg0) (trello_params cfg0 "")]
  ∧ trello_params cfg0 "" !! "name" = Some "".
Proof. split; vm_compute; reflexivity. Qed.

(** C6 at a failing input: for the text [/start] and a chat service that
    cannot be reached, the greeting is the one call made and the view raises
    [ConnectionError] instead of answering 200. *)
Theorem start_command_unreachable_raises :
  telegram_webhook cfg0 w_chat_down (post (text_update (JStr "/start"))) =
    ([LOG_RECEIVED;
      PostJson (telegram_url cfg0) (telegram_payload (JInt 42) greeting)],
     inl ConnectionError).
Proof. vm_compute. reflexivity. Qed.

(** C7 at a failing input: for a message without text and a chat service
    that cannot be reached, the canned reply is the one call made and the
    view raises [ConnectionError] instead of answering 200. *)
Theorem textless_message_unreachable_raises :
  telegram_webhook cfg0 w_chat_down (post textless_update) =
    ([LOG_RECEIVED;
      PostJson (telegram_url cfg0) (telegram_payload (JInt 42) plain_text_only)],
     inl ConnectionError).
Proof. vm_compute. reflexivity. Qed.


(** C10 at a failing input: a message whose text is the empty string gets
    the canned reply of a message without text; when the chat service cannot
    be reached, that reply is the one call made and the view raises
    [ConnectionError] instead of answering 200. *)
Theorem empty_text_unreachable_raises :
  telegram_webhook cfg0 w_chat_down (post (text_update (JStr ""))) =
    ([LOG_RECEIVED;
      PostJson (telegram_url cfg0) (telegram_payload (JInt 42) plain_text_only)],
     inl ConnectionError).
Proof. vm_compute. reflexivity. Qed.

(** ** What holds of the code next to the claims above *)

(** X1. An answered request is contained.  For every chat id and text, when the
    chat service answers the request, with whatever status,
    [send_telegram_message] makes that one request, raises nothing, and
    leaves its error record exactly for a status from 400 to 599. *)
Theorem send_telegram_message_contains_status cfg w chat_id text r :
  post_json w (telegram_url cfg) (telegram_payload chat_id text) = Responded r →
  outcome_of (send_telegram_message cfg w chat_id text) = inr tt
  ∧ calls (trace_of (send_telegram_message cfg w chat_id text)) =
      [PostJson (telegram_url cfg) (telegram_payload chat_id text)]
  ∧ (LOG_TELEGRAM_ERROR ∈ trace_of (send_telegram_message cfg w chat_id text)
     ↔ 400 ≤ status_code r < 600).
Proof.
  intros H. rewrite (send_telegram_message_responded _ _ _ _ _ H).
  unfold outcome_of, trace_of. cbn [fst snd].
  split; [reflexivity |]. split; [by calls_simpl |]. split.
  - intros Hin. apply elem_of_cons in Hin as [Hin | Hin]; [discriminate |].
    unfold chat_log, http_error in Hin.
    destruct (400 <=? status_code r) eqn:H1;
      destruct (status_code r <? 600) eqn:H2; simpl in Hin;
      try (by apply elem_of_nil in Hin).
    apply Z.leb_le in H1. by apply Z.ltb_lt in H2.
  - intros [H1 H2]. apply Z.leb_le in H1. apply Z.ltb_lt in H2.
    apply elem_of_cons. right. unfold chat_log, http_error.
    rewrite H1, H2. simpl. apply elem_of_cons. by left.
Qed.

(** A 403 of the chat service is logged and swallowed. *)
Lemma send_telegram_message_contains_status_witness :
  outcome_of (send_telegram_message cfg0 w_chat_403 (JInt 42) "hi") = inr tt
  ∧ calls (trace_of (send_telegram_message cfg0 w_chat_403 (JInt 42) "hi")) =
      [PostJson (telegram_url cfg0) (telegram_payload (JInt 42) "hi")]
  ∧ (LOG_TELEGRAM_ERROR ∈ trace_of (send_telegram_message cfg0 w_chat_403 (JInt 42) "hi")
     ↔ 400 ≤ 403 < 600).
Proof.
  assert (H := send_telegram_message_contains_status cfg0 w_chat_403 (JInt 42) "hi"
                 {| status_code := 403; json_body := None |}).
  apply H. reflexivity.
Defined.

(** The reply to [{"message": {"chat": {"id": 42}}}] when the chat service
    answers. *)
Lemma plain_text_only_reply_witness :
  telegram_webhook cfg0 w_echo (post textless_update) =
    ([LOG_RECEIVED;
      PostJson (telegram_url cfg0) (telegram_payload (JInt 42) plain_text_only)],
     inr ok_true).
Proof.
  assert (H := plain_text_only_reply cfg0 w_echo
                 {[ "message" := JObj {[ "chat" := JObj {[ "id" := JInt 42 ]} ]} ]}
                 (JInt 42)
                 {| status_code := 200;
                    json_body := Some (JObj {[ "ok" := JBool true ]}) |}).
  apply H.
  - vm_compute. reflexivity.
  - vm_compute. reflexivity.
  - reflexivity.
Defined.

(** The reply to the text [" /start now "] when the chat service answers. *)
Lemma start_command_reply_witness :
  telegram_webhook cfg0 w_echo (post (text_update (JStr " /start now "))) =
    ([LOG_RECEIVED;
      PostJson (telegram_url cfg0) (telegram_payload (JInt 42) greeting)],
     inr ok_true).
Proof.
  assert (H := start_command_reply cfg0 w_echo
                 {[ "message" := JObj {[ "chat" := JObj {[ "id" := JInt 42 ]};
                                         "text" := JStr " /start now " ]} ]}
                 (JInt 42) " /start now "
                 {| status_code := 200;
                    json_body := Some (JObj {[ "ok" := JBool true ]}) |}).
  apply H.
  - vm_compute. reflexivity.
  - vm_compute. reflexivity.
  - vm_compute. reflexivity.
  - reflexivity.
Defined.

(** Scenario D: the board service answers 500 and the chat service
    answers. *)
Lemma board_failure_notice_witness :
  calls (trace_of (telegram_webhook cfg0 w_board_500 (post (text_update (JStr "buy milk"))))) =
    [PostParams (trello_url cfg0) (trello_params cfg0 "buy milk");
     PostJson (telegram_url cfg0) (telegram_payload (JInt 42) oops)]
  ∧ outcome_of (telegram_webhook cfg0 w_board_500 (post (text_update (JStr "buy milk"))))
    = inr ok_true.
Proof.
  assert (H := board_failure_notice cfg0 w_board_500
                 {[ "message" := JObj {[ "chat" := JObj {[ "id" := JInt 42 ]};
                                         "text" := JStr "buy milk" ]} ]}
                 (JInt 42) "buy milk"
                 {| status_code := 200;
                    json_body := Some (JObj {[ "ok" := JBool true ]}) |}).
  apply H.
  - vm_compute. reflexivity.
  - vm_compute. reflexivity.
  - discriminate.
  - vm_compute. reflexivity.
  - reflexivity.
  - reflexivity.
Defined.


(** * Further properties of the code *)

(** ** The two clients, in every world *)

Lemma add_checkitem_to_trello_eq cfg w task :
  add_checkitem_to_trello cfg w task =
    match post_params w (trello_url cfg) (trello_params cfg task) with
    | Unreachable => ([board_call cfg task], inl ConnectionError)
    | Responded r =>
        if http_error r
        then ([board_call cfg task; LOG_TRELLO_ERROR], inl HTTPError)
        else match json_body r with
             | Some j => ([board_call cfg task], inr j)
             | None => ([board_call cfg task], inl JSONDecodeError)
             end
    end.
Proof.
  unfold add_checkitem_to_trello, requests_post_params, mbind, M_bind.
  rewrite bind_emit.
  destruct (post_params w _ _) as [| r]; [reflexivity |].
  unfold raise_for_status, resp_json. simpl.
  destruct (http_error r); [reflexivity |].
  by destruct (json_body r).
Qed.

Lemma send_telegram_message_eq cfg w chat_id text :
  send_telegram_message cfg w chat_id text =
    match post_json w (telegram_url cfg) (telegram_payload chat_id text) with
    | Unreachable => ([chat_call cfg chat_id text], inl ConnectionError)
    | Responded r => (chat_call cfg chat_id text :: chat_log r, inr tt)
    end.
Proof.
  destruct (post_json w _ _) as [| r] eqn:H.
  - by apply send_telegram_message_unreachable.
  - by apply send_telegram_message_responded.
Qed.

(** X7. [add_checkitem_to_trello] makes exactly one request in every case
    (nothing is retried), for the configured checklist and the text it is
    given, and it returns a value exactly when that request is answered with
    a status outside 400 to 599 and a JSON body: the value is that body. *)
Theorem add_checkitem_to_trello_returns_iff cfg w task :
  calls (trace_of (add_checkitem_to_trello cfg w task)) = [board_call cfg task]
  ∧ ∀ j, outcome_of (add_checkitem_to_trello cfg w task) = inr j
         ↔ ∃ r, post_params w (trello_url cfg) (trello_params cfg task) = Responded r
                ∧ ¬ (400 ≤ status_code r < 600)
                ∧ json_body r = Some j.
Proof.
  rewrite add_checkitem_to_trello_eq.
  destruct (post_params w _ _) as [| r].
  - split; [reflexivity |]. intros j. split; [discriminate |].
    by intros (r & ? & _).
  - assert (Hs : http_error r = true ↔ 400 ≤ status_code r < 600).
    { unfold http_error. rewrite andb_true_iff, Z.leb_le, Z.ltb_lt. reflexivity. }
    destruct (http_error r) eqn:He.
    + split; [reflexivity |]. intros j. split; [discriminate |].
      intros (r' & [= <-] & Hn & _). destruct Hn. by apply Hs.
    + assert (Hn : ¬ (400 ≤ status_code r < 600)).
      { intros H. apply Hs in H. discriminate. }
      destruct (json_body r) as [j' |] eqn:Hj.
      * split; [reflexivity |]. intros j. unfold outcome_of. simpl. split.
        -- intros [= <-]. by exists r.
        -- intros (r' & [= <-] & _ & Hj'). congruence.
      * split; [reflexivity |]. intros j. split; [discriminate |].
        intros (r' & [= <-] & _ & Hj'). congruence.
Qed.

(** X8. The failures of [add_checkitem_to_trello] are told apart by the
    exception it raises: [ConnectionError] exactly when the request cannot
    be reached, [HTTPError] exactly when the answer has a status from 400 to
    599, [JSONDecodeError] exactly when the answer has another status and a
    body that is not JSON; the error record is logged for the [HTTPError]
    and for nothing else. *)
Theorem add_checkitem_to_trello_failures cfg w task :
  (outcome_of (add_checkitem_to_trello cfg w task) = inl ConnectionError
   ↔ post_params w (trello_url cfg) (trello_params cfg task) = Unreachable)
  ∧ (outcome_of (add_checkitem_to_trello cfg w task) = inl HTTPError
     ↔ ∃ r, post_params w (trello_url cfg) (trello_params cfg task) = Responded r
            ∧ 400 ≤ status_code r < 600)
  ∧ (outcome_of (add_checkitem_to_trello cfg w task) = inl JSONDecodeError
     ↔ ∃ r, post_params w (trello_url cfg) (trello_params cfg task) = Responded r
            ∧ ¬ (400 ≤ status_code r < 600) ∧ json_body r = None)
  ∧ (LOG_TRELLO_ERROR ∈ trace_of (add_checkitem_to_trello cfg w task)
     ↔ outcome_of (add_checkitem_to_trello cfg w task) = inl HTTPError).
Proof.
  rewrite add_checkitem_to_trello_eq.
  destruct (post_params w _ _) as [| r].
  - unfold outcome_of, trace_of. simpl. repeat split; try done.
    + by intros (r & ? & _).
    + by intros (r & ? & _).
    + intros H. apply elem_of_cons in H as [H | H]; [discriminate |].
      by apply elem_of_nil in H.
  - assert (Hs : http_error r = true ↔ 400 ≤ status_code r < 600).
    { unfold http_error. rewrite andb_true_iff, Z.leb_le, Z.ltb_lt. reflexivity. }
    destruct (http_error r) eqn:He.
    + assert (H4 : 400 ≤ status_code r < 600) by (by apply Hs).
      unfold outcome_of, trace_of. simpl. split; [split; discriminate |].
      split; [split; [by exists r | reflexivity] |].
      split; [split; [discriminate | by intros (r' & [= <-] & Hn & _)] |].
      split; [reflexivity |]. intros _. apply elem_of_cons. right.
      apply elem_of_cons. by left.
    + assert (Hn : ¬ (400 ≤ status_code r < 600)).
      { intros H. apply Hs in H. discriminate. }
      destruct (json_body r) as [j |] eqn:Hj; unfold outcome_of, trace_of; simpl.
      * split; [split; discriminate |].
        split; [split; [discriminate | by intros (r' & [= <-] & H4)] |].
        split; [split; [discriminate | intros (r' & [= <-] & _ & ?); congruence] |].
        split; [| discriminate].
        intros H. apply elem_of_cons in H as [H | H]; [discriminate |].
        by apply elem_of_nil in H.
      * split; [split; discriminate |].
        split; [split; [discriminate | by intros (r' & [= <-] & H4)] |].
        split; [split; [by exists r | reflexivity] |].
        split; [| discriminate].
        intros H. apply elem_of_cons in H as [H | H]; [discriminate |].
        by apply elem_of_nil in H.
Qed.

(** X9. [send_telegram_message] makes exactly one request in every case, and
    it raises exactly when that request cannot be reached: the exception is
    then the [ConnectionError] of [requests.post], and no [HTTPError] ever
    leaves the function. *)
Theorem send_telegram_message_raises_iff cfg w chat_id text :
  calls (trace_of (send_telegram_message cfg w chat_id text)) =
    [chat_call cfg chat_id text]
  ∧ ∀ e, outcome_of (send_telegram_message cfg w chat_id text) = inl e
         ↔ e = ConnectionError
           ∧ post_json w (telegram_url cfg) (telegram_payload chat_id text)
             = Unreachable.
Proof.
  rewrite send_telegram_message_eq.
  destruct (post_json w _ _) as [| r]; unfold outcome_of, trace_of; simpl.
  - split; [reflexivity |]. intros e. split; [by intros [= <-] | by intros [-> _]].
  - split.
    + unfold chat_call. by calls_simpl.
    + intros e. split; [discriminate | by intros [_ ?]].
Qed.

(** ** Lines 100-109, in every world *)

Lemma bind_value {A B} (t : list event) (a : A) (k : A → M B) :
  bind (t, inr a) k = (t ++ trace_of (k a), outcome_of (k a)).
Proof. unfold bind, trace_of, outcome_of. by destruct (k a). Qed.

Lemma failure_handler_eq cfg w chat_id (pre : list event) (e : exn) :
  try_except (pre, inl e) (λ _, true)
    (λ _, bind (emit LOG_FAILED) (λ _, send_telegram_message cfg w chat_id oops))
  = failure_path cfg w chat_id pre.
Proof.
  unfold try_except, failure_path. rewrite bind_emit. reflexivity.
Qed.

Lemma add_task_eq cfg w chat_id task :
  add_task cfg w chat_id task =
    match post_params w (trello_url cfg) (trello_params cfg task) with
    | Unreachable => failure_path cfg w chat_id [board_call cfg task]
    | Responded r =>
        if http_error r
        then failure_path cfg w chat_id [board_call cfg task; LOG_TRELLO_ERROR]
        else
          match json_body r with
          | Some (JObj item) =>
              let text :=
                added_prefix +:+ py_str w (default (JStr task) (item !! "name")) in
              match post_json w (telegram_url cfg) (telegram_payload chat_id text) with
              | Unreachable =>
                  failure_path cfg w chat_id
                    [board_call cfg task; chat_call cfg chat_id text]
              | Responded rc =>
                  (board_call cfg task :: chat_call cfg chat_id text :: chat_log rc,
                   inr tt)
              end
          | _ => failure_path cfg w chat_id [board_call cfg task]
          end
    end.
Proof.
  unfold add_task, mbind, M_bind. rewrite add_checkitem_to_trello_eq.
  destruct (post_params w _ _) as [| r];
    [by rewrite <- (failure_handler_eq _ _ _ _ ConnectionError) |].
  destruct (http_error r);
    [by rewrite <- (failure_handler_eq _ _ _ _ HTTPError) |].
  destruct (json_body r) as [j |];
    [| by rewrite <- (failure_handler_eq _ _ _ _ JSONDecodeError)].
  destruct j as [| | | | | | item];
    try (by rewrite <- (failure_handler_eq _ _ _ _ AttributeError)).
  cbn zeta. rewrite bind_value. unfold py_get, mret, M_ret.
  rewrite bind_ret, send_telegram_message_eq.
  destruct (post_json w _ _) as [| rc]; unfold trace_of, outcome_of; cbn [fst snd app].
  - by rewrite <- (failure_handler_eq _ _ _ _ ConnectionError).
  - reflexivity.
Qed.

Lemma calls_send cfg w chat_id text :
  calls (trace_of (send_telegram_message cfg w chat_id text)) =
    [chat_call cfg chat_id text].
Proof.
  rewrite send_telegram_message_eq.
  destruct (post_json w _ _) as [| r]; [reflexivity |].
  unfold trace_of, chat_call. cbn [fst]. by calls_simpl.
Qed.


Lemma calls_failure_path cfg w chat_id (pre : list event) :
  calls (trace_of (failure_path cfg w chat_id pre)) =
    calls pre ++ [chat_call cfg chat_id oops].
Proof.
  unfold failure_path. unfold trace_of at 1. cbn [fst]. unfold LOG_FAILED.
  by rewrite calls_app, calls_log, calls_send.
Qed.


(** The calls of lines 100-109: the board service once, then the
    confirmation, the failure notice, or the one after the other. *)
Lemma calls_add_task cfg w chat_id task :
  calls (trace_of (add_task cfg w chat_id task)) =
    [board_call cfg task; chat_call cfg chat_id oops]
  ∨ ∃ name,
      calls (trace_of (add_task cfg w chat_id task)) =
        [board_call cfg task; chat_call cfg chat_id (added_prefix +:+ name)]
      ∨ calls (trace_of (add_task cfg w chat_id task)) =
          [board_call cfg task; chat_call cfg chat_id (added_prefix +:+ name);
           chat_call cfg chat_id oops].
Proof.
  rewrite add_task_eq.
  destruct (post_params w _ _) as [| r];
    [left; by rewrite calls_failure_path |].
  destruct (http_error r);
    [left; rewrite calls_failure_path; unfold board_call; by calls_simpl |].
  destruct (json_body r) as [[| | | | | | item] |];
    try (left; by rewrite calls_failure_path).
  right. exists (py_str w (default (JStr task) (item !! "name"))). cbn zeta.
  destruct (post_json w _ _) as [| rc].
  - right. rewrite calls_failure_path. reflexivity.
  - left. unfold trace_of, board_call, chat_call. cbn [fst]. by calls_simpl.
Qed.



Lemma trace_then_ok (c : M unit) : trace_of (then_ok c) = trace_of c.
Proof. reflexivity. Qed.

(** ** The view, in every world *)

Lemma handle_update_not_object cfg w upd :
  is_object upd = false → handle_update cfg w upd = ([], inl AttributeError).
Proof. by destruct upd. Qed.

Lemma telegram_webhook_head cfg w parsed :
  telegram_webhook cfg w {| method := HEAD; get_json := parsed |} =
  telegram_webhook cfg w {| method := POST; get_json := parsed |}.
Proof. reflexivity. Qed.

(** The calls of lines 83-111. *)
Lemma calls_handle_text cfg w chat_id text :
  calls (trace_of (handle_text cfg w chat_id text)) = []
  ∨ calls (trace_of (handle_text cfg w chat_id text)) =
      [chat_call cfg chat_id plain_text_only]
  ∨ calls (trace_of (handle_text cfg w chat_id text)) =
      [chat_call cfg chat_id greeting]
  ∨ ∃ s, text = JStr s
       ∧ (calls (trace_of (handle_text cfg w chat_id text)) =
            [board_call cfg (strip s); chat_call cfg chat_id oops]
          ∨ ∃ name,
              calls (trace_of (handle_text cfg w chat_id text)) =
                [board_call cfg (strip s);
                 chat_call cfg chat_id (added_prefix +:+ name)]
              ∨ calls (trace_of (handle_text cfg w chat_id text)) =
                  [board_call cfg (strip s);
                   chat_call cfg chat_id (added_prefix +:+ name);
                   chat_call cfg chat_id oops]).
Proof.
  destruct (truthy text) eqn:Ht.
  - destruct (is_str text) eqn:Hs.
    + destruct text as [| | | | s | |]; try discriminate.
      destruct (startswith (strip s) "/start") eqn:Hp.
      * right; right; left. rewrite (handle_text_start _ _ _ _ Hp).
        apply calls_send.
      * do 3 right. exists s. split; [reflexivity |].
        rewrite handle_text_task by (done || by intros ->).
        apply calls_add_task.
    + left. rewrite handle_text_not_str; [reflexivity | done |].
      intros s ->. discriminate.
  - right; left. rewrite (handle_text_falsy _ _ _ _ Ht). apply calls_send.
Qed.

(** X10. Whatever the request and whatever the two services do, the view
    makes no call at all, or its calls are one of five sequences, all for
    the chat id of the selected message: the canned reply alone, the
    greeting alone, or one board-service call for the trimmed text followed
    by the confirmation, by the failure notice, or by the confirmation and
    then the failure notice.  So the board service is never called twice,
    the chat service never more than twice, no chat-service call comes
    before the board-service call, and every board-service call is followed
    by a message to the user. *)
Theorem call_discipline cfg w req :
  webhook_calls cfg w req = []
  ∨ ∃ u chat_id,
      get_json req = Some (JObj u)
      ∧ chat_id_of (select_message u) = Some chat_id
      ∧ (webhook_calls cfg w req = [chat_call cfg chat_id plain_text_only]
         ∨ webhook_calls cfg w req = [chat_call cfg chat_id greeting]
         ∨ ∃ s, text_field (select_message u) = Some (JStr s)
              ∧ (webhook_calls cfg w req =
                   [board_call cfg (strip s); chat_call cfg chat_id oops]
                 ∨ ∃ name,
                     webhook_calls cfg w req =
                       [board_call cfg (strip s);
                        chat_call cfg chat_id (added_prefix +:+ name)]
                     ∨ webhook_calls cfg w req =
                         [board_call cfg (strip s);
                          chat_call cfg chat_id (added_prefix +:+ name);
                          chat_call cfg chat_id oops])).
Proof.
  unfold webhook_calls. destruct req as [m parsed].
  destruct m; [by left | rewrite telegram_webhook_head |].
  all: destruct parsed as [upd |];
    [| left; by rewrite telegram_webhook_falsy].
  all: destruct (truthy upd) eqn:Hu;
    [| left; by rewrite telegram_webhook_falsy].
  all: change {| method := POST; get_json := Some upd |} with (post upd).
  all: rewrite (telegram_webhook_post _ _ _ Hu); unfold trace_of at 1; cbn [fst].
  all: unfold LOG_RECEIVED; rewrite calls_log.
  all: destruct (is_object upd) eqn:Ho;
    [| left; by rewrite handle_update_not_object].
  all: destruct upd as [| | | | | | u]; try discriminate.
  all: rewrite handle_update_obj.
  all: destruct (truthy (select_message u)) eqn:Hm; [| by left].
  all: destruct (chat_id_of (select_message u)) as [chat_id |] eqn:Hc;
    [| left; by destruct (handle_message_no_chat_id cfg w _ Hc) as (e & _ & ->)].
  all: rewrite (handle_message_chat _ _ _ _ Hc).
  all: destruct (calls_handle_text cfg w chat_id
                   (default JNull (text_field (select_message u))))
         as [H | [H | [H | (s & Hs & H)]]];
    [by left | right; exists u, chat_id; auto
     | right; exists u, chat_id; auto |].
  all: right; exists u, chat_id; repeat split; try done.
  all: right; right; exists s; split; [| exact H].
  all: destruct (text_field (select_message u)) as [t |]; [| discriminate].
  all: simpl in Hs; by rewrite Hs.
Qed.




(** ** Inputs the chat platform does not send *)

(** X12. A body that parses to a true value that is no object (a non-empty
    array or string, a non-zero number, [true]) makes the view raise
    [AttributeError] once the update is logged; no call is made and no reply
    is returned. *)
Theorem non_object_update_raises cfg w upd :
  truthy upd = true →
  is_object upd = false →
  telegram_webhook cfg w (post upd) = ([LOG_RECEIVED], inl AttributeError).
Proof.
  intros Hu Ho.
  by rewrite (telegram_webhook_post _ _ _ Hu), handle_update_not_object.
Qed.

(** The body [[1]]. *)
Lemma non_object_update_raises_witness :
  telegram_webhook cfg0 w_echo (post (JArr [JInt 1])) =
    ([LOG_RECEIVED], inl AttributeError).
Proof.
  apply (non_object_update_raises cfg0 w_echo (JArr [JInt 1])); reflexivity.
Defined.

(** X13. When the selected message has a chat id and a text that is true
    for Python but no string (a non-zero number, [true], a non-empty array
    or object), the view raises [AttributeError] at [text.strip()]: no call
    is made, the user gets no reply, and no reply is returned. *)
Theorem non_string_text_raises cfg w (u : gmap string json) chat_id text :
  chat_id_of (select_message u) = Some chat_id →
  text_field (select_message u) = Some text →
  truthy text = true →
  is_str text = false →
  telegram_webhook cfg w (post (JObj u)) = ([LOG_RECEIVED], inl AttributeError).
Proof.
  intros Hc Ht Hy Hs. rewrite (telegram_webhook_message _ _ _ _ Hc), Ht. simpl.
  rewrite handle_text_not_str; [reflexivity | done |].
  intros s ->. discriminate.
Qed.

(** The update [{"message": {"chat": {"id": 42}, "text": 5}}]. *)
Lemma non_string_text_raises_witness :
  telegram_webhook cfg0 w_echo (post (text_update (JInt 5))) =
    ([LOG_RECEIVED], inl AttributeError).
Proof.
  assert (H := non_string_text_raises cfg0 w_echo
                 {[ "message" := JObj {[ "chat" := JObj {[ "id" := JInt 42 ]};
                                         "text" := JInt 5 ]} ]}
                 (JInt 42) (JInt 5)).
  apply H.
  - vm_compute. reflexivity.
  - vm_compute. reflexivity.
  - reflexivity.
  - reflexivity.
Defined.

(** ** What the view does not look at *)





(** ** Surrounding whitespace *)






(** ** Failures the user is told about as board failures *)

(** X17. An answer of the board service with a status outside 400 to 599
    whose body is no JSON object (no JSON at all, or an array, a string, a
    number) is handled as a failure: after the one board-service call the
    failure notice is the one chat-service call, and, when the chat service
    answers it, the view returns the 200 acknowledgement. *)
Theorem unusable_answer_is_a_failure
    cfg w (u : gmap string json) chat_id s r rc :
  chat_id_of (select_message u) = Some chat_id →
  text_field (select_message u) = Some (JStr s) →
  s ≠ "" →
  startswith (strip s) "/start" = false →
  post_params w (trello_url cfg) (trello_params cfg (strip s)) = Responded r →
  http_error r = false →
  (∀ item, json_body r ≠ Some (JObj item)) →
  post_json w (telegram_url cfg) (telegram_payload chat_id oops) = Responded rc →
  webhook_calls cfg w (post (JObj u)) =
    [board_call cfg (strip s); chat_call cfg chat_id oops]
  ∧ outcome_of (telegram_webhook cfg w (post (JObj u))) = inr ok_true.
Proof.
  intros Hc Ht Hne Hp Hb He Hj Hr. unfold webhook_calls.
  rewrite (task_route _ _ _ _ _ Hc Ht Hne Hp), add_task_eq, Hb, He.
  assert (Hf : match json_body r with
               | Some (JObj item) =>
                   let text :=
                     added_prefix +:+
                     py_str w (default (JStr (strip s)) (item !! "name")) in
                   match post_json w (telegram_url cfg)
                           (telegram_payload chat_id text) with
                   | Unreachable =>
                       failure_path cfg w chat_id
                         [board_call cfg (strip s); chat_call cfg chat_id text]
                   | Responded rc0 =>
                       (board_call cfg (strip s) :: chat_call cfg chat_id text
                          :: chat_log rc0, inr tt)
                   end
               | _ => failure_path cfg w chat_id [board_call cfg (strip s)]
               end = failure_path cfg w chat_id [board_call cfg (strip s)]).
  { destruct (json_body r) as [[| | | | | | item] |]; try reflexivity.
    by destruct (Hj item). }
  rewrite Hf. unfold failure_path.
  rewrite (send_telegram_message_responded _ _ _ _ _ Hr).
  unfold then_ok, trace_of, outcome_of. cbn [fst snd]. split; [| reflexivity].
  unfold board_call, chat_call. by calls_simpl.
Qed.

(** The board service answers 200 with a page that is not JSON. *)
Lemma unusable_answer_is_a_failure_witness :
  webhook_calls cfg0 w_board_html (post (text_update (JStr "buy milk"))) =
    [board_call cfg0 "buy milk"; chat_call cfg0 (JInt 42) oops]
  ∧ outcome_of (telegram_webhook cfg0 w_board_html (post (text_update (JStr "buy milk"))))
    = inr ok_true.
Proof.
  assert (H := unusable_answer_is_a_failure cfg0 w_board_html
                 {[ "message" := JObj {[ "chat" := JObj {[ "id" := JInt 42 ]};
                                         "text" := JStr "buy milk" ]} ]}
                 (JInt 42) "buy milk"
                 {| status_code := 200; json_body := None |}
                 {| status_code := 200;
                    json_body := Some (JObj {[ "ok" := JBool true ]}) |}).
  apply H.
  - vm_compute. reflexivity.
  - vm_compute. reflexivity.
  - discriminate.
  - vm_compute. reflexivity.
  - reflexivity.
  - reflexivity.
  - discriminate.
  - reflexivity.
Defined.

(** X18. When the board service has added the item but the confirmation
    cannot be delivered (the chat service cannot be reached), the
    [ConnectionError] is caught as a board failure: the failure is logged
    and a second chat-service call carries the failure notice; when that
    one is answered, the view returns the 200 acknowledgement. *)
Theorem lost_confirmation_sends_notice
    cfg w (u : gmap string json) chat_id s r item rc :
  chat_id_of (select_message u) = Some chat_id →
  text_field (select_message u) = Some (JStr s) →
  s ≠ "" →
  startswith (strip s) "/start" = false →
  post_params w (trello_url cfg) (trello_params cfg (strip s)) = Responded r →
  http_error r = false →
  json_body r = Some (JObj item) →
  post_json w (telegram_url cfg)
    (telegram_payload chat_id
       (added_prefix +:+ py_str w (default (JStr (strip s)) (item !! "name"))))
    = Unreachable →
  post_json w (telegram_url cfg) (telegram_payload chat_id oops) = Responded rc →
  webhook_calls cfg w (post (JObj u)) =
    [board_call cfg (strip s);
     chat_call cfg chat_id
       (added_prefix +:+ py_str w (default (JStr (strip s)) (item !! "name")));
     chat_call cfg chat_id oops]
  ∧ LOG_FAILED ∈ trace_of (telegram_webhook cfg w (post (JObj u)))
  ∧ outcome_of (telegram_webhook cfg w (post (JObj u))) = inr ok_true.
Proof.
  intros Hc Ht Hne Hp Hb He Hj Ha Hr. unfold webhook_calls.
  rewrite (task_route _ _ _ _ _ Hc Ht Hne Hp), add_task_eq, Hb, He, Hj.
  cbn zeta. rewrite Ha. unfold failure_path.
  rewrite (send_telegram_message_responded _ _ _ _ _ Hr).
  unfold then_ok, trace_of, outcome_of. cbn [fst snd app].
  split; [| split; [| reflexivity]].
  - unfold board_call, chat_call. by calls_simpl.
  - rewrite !elem_of_cons. auto 10.
Qed.

(** The item ["buy milk"] is added, and the user is told it was not. *)
Lemma lost_confirmation_sends_notice_witness :
  webhook_calls cfg0 w_confirmation_lost (post (text_update (JStr "buy milk"))) =
    [board_call cfg0 "buy milk";
     chat_call cfg0 (JInt 42) "Added to Trello checklist: buy milk";
     chat_call cfg0 (JInt 42) oops]
  ∧ LOG_FAILED ∈ trace_of (telegram_webhook cfg0 w_confirmation_lost
                              (post (text_update (JStr "buy milk"))))
  ∧ outcome_of (telegram_webhook cfg0 w_confirmation_lost
                  (post (text_update (JStr "buy milk"))))
    = inr ok_true.
Proof.
  assert (H := lost_confirmation_sends_notice cfg0 w_confirmation_lost
                 {[ "message" := JObj {[ "chat" := JObj {[ "id" := JInt 42 ]};
                                         "text" := JStr "buy milk" ]} ]}
                 (JInt 42) "buy milk"
                 {| status_code := 200;
                    json_body := Some (JObj {[ "name" := JStr "buy milk" ]}) |}
                 {[ "name" := JStr "buy milk" ]}
                 {| status_code := 200;
                    json_body := Some (JObj {[ "ok" := JBool true ]}) |}).
  apply H.
  - vm_compute. reflexivity.
  - vm_compute. reflexivity.
  - discriminate.
  - vm_compute. reflexivity.
  - vm_compute. reflexivity.
  - reflexivity.
  - reflexivity.
  - vm_compute. reflexivity.
  - vm_compute. reflexivity.
Defined.

(** ** When the view fails *)

Lemma undelivered_nil w : ¬ undelivered w [].
Proof. by intros (url & payload & H & _). Qed.

Lemma undelivered_snoc w (t : list event) chat_id text cfg :
  undelivered w (t ++ [chat_call cfg chat_id text])
  ↔ post_json w (telegram_url cfg) (telegram_payload chat_id text) = Unreachable.
Proof.
  unfold undelivered. rewrite last_snoc. split.
  - by intros (url & payload & [= <- <-] & H).
  - intros H. by exists (telegram_url cfg), (telegram_payload chat_id text).
Qed.

Lemma send_undelivered cfg w chat_id text :
  outcome_of (send_telegram_message cfg w chat_id text) = inl ConnectionError
  ↔ undelivered w (calls (trace_of (send_telegram_message cfg w chat_id text))).
Proof.
  rewrite calls_send.
  rewrite (undelivered_snoc w [] chat_id text cfg), send_telegram_message_eq.
  by destruct (post_json w _ _).
Qed.

Lemma failure_path_undelivered cfg w chat_id (pre : list event) :
  outcome_of (failure_path cfg w chat_id pre) = inl ConnectionError
  ↔ undelivered w (calls (trace_of (failure_path cfg w chat_id pre))).
Proof.
  rewrite calls_failure_path, undelivered_snoc.
  unfold failure_path. unfold outcome_of at 1. cbn [snd].
  rewrite send_telegram_message_eq. by destruct (post_json w _ _).
Qed.

Lemma add_task_undelivered cfg w chat_id task :
  outcome_of (add_task cfg w chat_id task) = inl ConnectionError
  ↔ undelivered w (calls (trace_of (add_task cfg w chat_id task))).
Proof.
  rewrite add_task_eq.
  destruct (post_params w _ _) as [| r]; [apply failure_path_undelivered |].
  destruct (http_error r); [apply failure_path_undelivered |].
  destruct (json_body r) as [[| | | | | | item] |];
    try apply failure_path_undelivered.
  cbn zeta. destruct (post_json w _ _) as [| rc] eqn:Hr;
    [apply failure_path_undelivered |].
  unfold trace_of, outcome_of, board_call, chat_call. cbn [fst snd].
  autorewrite with calls. split; [discriminate |].
  intros (url & payload & Hl & Hu). simpl in Hl.
  injection Hl as <- <-. congruence.
Qed.

Lemma then_ok_undelivered w (c : M unit) :
  (outcome_of c = inl ConnectionError ↔ undelivered w (calls (trace_of c))) →
  (outcome_of (then_ok c) = inl ConnectionError
   ↔ undelivered w (calls (trace_of (then_ok c)))).
Proof.
  intros H. rewrite trace_then_ok, <- H.
  unfold then_ok. unfold outcome_of at 1. cbn [snd].
  destruct (outcome_of c) as [e | []]; split; congruence.
Qed.

Lemma handle_text_undelivered cfg w chat_id text :
  outcome_of (handle_text cfg w chat_id text) = inl ConnectionError
  ↔ undelivered w (calls (trace_of (handle_text cfg w chat_id text))).
Proof.
  destruct (truthy text) eqn:Ht.
  - destruct (is_str text) eqn:Hs.
    + destruct text as [| | | | s | |]; try discriminate.
      destruct (startswith (strip s) "/start") eqn:Hp.
      * rewrite (handle_text_start _ _ _ _ Hp).
        apply then_ok_undelivered, send_undelivered.
      * rewrite handle_text_task by (done || by intros ->).
        apply then_ok_undelivered, add_task_undelivered.
    + rewrite handle_text_not_str; [| done | by intros s ->].
      split; [discriminate | by intros ?%undelivered_nil].
  - rewrite (handle_text_falsy _ _ _ _ Ht).
    apply then_ok_undelivered, send_undelivered.
Qed.

(** X19. The view raises [ConnectionError] exactly when the last call it
    made is a chat-service request that could not be reached: the canned
    reply, the greeting, or the failure notice.  An unreachable board
    service alone never makes the view fail, and neither does an
    unreachable confirmation whose failure notice is answered. *)
Theorem connection_error_iff_undelivered cfg w req :
  outcome_of (telegram_webhook cfg w req) = inl ConnectionError
  ↔ undelivered w (webhook_calls cfg w req).
Proof.
  unfold webhook_calls. destruct req as [m parsed].
  destruct m;
    [split; [discriminate | by intros ?%undelivered_nil]
    | rewrite telegram_webhook_head |].
  all: destruct parsed as [upd |];
    [| rewrite telegram_webhook_falsy by done;
       split; [discriminate | by intros ?%undelivered_nil]].
  all: destruct (truthy upd) eqn:Hu;
    [| rewrite telegram_webhook_falsy by done;
       split; [discriminate | by intros ?%undelivered_nil]].
  all: change {| method := POST; get_json := Some upd |} with (post upd).
  all: rewrite (telegram_webhook_post _ _ _ Hu).
  all: change (outcome_of (?t, ?o)) with o; change (trace_of (?t, ?o)) with t.
  all: unfold LOG_RECEIVED; rewrite calls_log.
  all: destruct (is_object upd) eqn:Ho;
    [| rewrite handle_update_not_object by done;
       split; [discriminate | by intros ?%undelivered_nil]].
  all: destruct upd as [| | | | | | u]; try discriminate.
  all: rewrite handle_update_obj.
  all: destruct (truthy (select_message u)) eqn:Hm;
    [| split; [discriminate | by intros ?%undelivered_nil]].
  all: destruct (chat_id_of (select_message u)) as [chat_id |] eqn:Hc;
    [| destruct (handle_message_no_chat_id cfg w _ Hc) as (e & [-> | ->] & ->);
       (split; [discriminate | by intros ?%undelivered_nil])].
  all: rewrite (handle_message_chat _ _ _ _ Hc).
  all: apply handle_text_undelivered.
Qed.

(** ** From the environment to the wire *)



